(** * guisehn.com: the colour-scheme switch and the post index

    A shallow embedding of
    - [src/components/DarkModeSwitch.tsx]: the Preact component that keeps the
      colour-scheme preference in [localStorage] under the key
      ["color_scheme"], listens to the [prefers-color-scheme] media query and
      calls the page's [window.updateDarkMode];
    - the front matter of [src/pages/index.astro]: the blog collection sorted
      by publication date.

    JavaScript values are modelled as the code has them: the preference held
    by [useState] is a string, [localStorage] is a finite map from strings to
    strings whose accesses may throw, and the component's effects (hook
    slots, listeners, writes, calls of the page's routines) are threaded
    through an explicit state-and-exception monad over a [World]. *)

From Stdlib Require Import ZArith List Lia Permutation Sorted.
From stdpp Require Import base option strings gmap list.

Open Scope string_scope.

(** ** Values *)

(** [type Preference = "system" | "light" | "dark"] *)
Inductive Preference := System | Light | Dark.

(** The string literal a [Preference] is at run time. *)
Definition Preference_value (p : Preference) : string :=
  match p with
  | System => "system"
  | Light => "light"
  | Dark => "dark"
  end.

(** The light/dark signal of the operating system, and the scheme the page is
    shown in. *)
Inductive Scheme := SchemeLight | SchemeDark.

(** The exceptions a Web Storage access raises. *)
Inductive DOMException := SecurityError | QuotaExceededError.

(** Outcome of evaluating a JavaScript expression. *)
Inductive completion (A : Type) :=
| Normal (a : A)
| Throw (e : DOMException).
Arguments Normal {A} a.
Arguments Throw {A} e.

(** ** Web Storage *)

(** What the browser lets the page do with its storage area: everything,
    reads only (the quota is used up, [setItem] raises [QuotaExceededError]),
    or nothing (storage is disabled for the page, every access raises
    [SecurityError]). *)
Inductive StorageMode := Enabled | QuotaFull | Blocked.

Record Storage := {
  mode : StorageMode;
  items : gmap string string
}.

(** [localStorage.getItem(key)]: [null] is [None]. *)
Definition getItem (key : string) (s : Storage) : completion (option string) :=
  match mode s with
  | Blocked => Throw SecurityError
  | Enabled | QuotaFull => Normal (items s !! key)
  end.

(** [localStorage.setItem(key, value)]. *)
Definition setItem (key value : string) (s : Storage) : completion Storage :=
  match mode s with
  | Blocked => Throw SecurityError
  | QuotaFull => Throw QuotaExceededError
  | Enabled => Normal {| mode := Enabled; items := <[key := value]> (items s) |}
  end.

(** The fixed key of [DarkModeSwitch.tsx]. *)
Definition color_scheme : string := "color_scheme".

(** ** The page as the component sees it *)

Inductive Icon := Sun | Moon.

(** What the component returns: the icon of the label and the [value] of the
    [select]. *)
Record VNode := {
  label_icon : Icon;
  select_value : string
}.

(** Listeners on the [change] event of the media query list. The component
    registers one kind only: [() => { rerender(); }]. *)
Inductive Listener := CallRerender.

(** State of the [useEffect] slot: not reached yet, scheduled by the render
    in progress, or run, with the clean-up function it returned ([None] for
    [undefined]; a clean-up would name the listener it removes). *)
Inductive EffectSlot :=
| NotRun
| Pending
| Ran (cleanup : option Listener).

(** The hook slots of the component instance, in call order:
    [useState] of the preference, [useState] of [useRerender], [useEffect]. *)
Record Hooks := {
  preference_slot : option string;
  date_slot : option nat;
  effect_slot : EffectSlot
}.

Definition no_hooks : Hooks :=
  {| preference_slot := None; date_slot := None; effect_slot := NotRun |}.

(** Observable actions, in the order they happen. A storage write records
    whether it went through; a call of [window.updateDarkMode] records what
    the storage holds under the key at that moment. *)
Inductive Event :=
| EvSetItem (key value : string) (ok : bool)
| EvUpdateDarkMode (stored : option string)
| EvRender (v : VNode)
| EvUncaught (e : DOMException).

Record World := {
  localStorage : Storage;
  prefers_dark : bool;
  mql_listeners : list Listener;
  hooks : Hooks;
  dirty : bool;
  dom : option VNode;
  now : nat;
  log : list Event
}.

Definition with_localStorage (s : Storage) (w : World) : World :=
  {| localStorage := s; prefers_dark := prefers_dark w;
     mql_listeners := mql_listeners w; hooks := hooks w; dirty := dirty w;
     dom := dom w; now := now w; log := log w |}.

Definition with_prefers_dark (b : bool) (w : World) : World :=
  {| localStorage := localStorage w; prefers_dark := b;
     mql_listeners := mql_listeners w; hooks := hooks w; dirty := dirty w;
     dom := dom w; now := now w; log := log w |}.

Definition with_mql_listeners (l : list Listener) (w : World) : World :=
  {| localStorage := localStorage w; prefers_dark := prefers_dark w;
     mql_listeners := l; hooks := hooks w; dirty := dirty w;
     dom := dom w; now := now w; log := log w |}.

Definition with_hooks (h : Hooks) (w : World) : World :=
  {| localStorage := localStorage w; prefers_dark := prefers_dark w;
     mql_listeners := mql_listeners w; hooks := h; dirty := dirty w;
     dom := dom w; now := now w; log := log w |}.

Definition with_dirty (b : bool) (w : World) : World :=
  {| localStorage := localStorage w; prefers_dark := prefers_dark w;
     mql_listeners := mql_listeners w; hooks := hooks w; dirty := b;
     dom := dom w; now := now w; log := log w |}.

Definition with_dom (d : option VNode) (w : World) : World :=
  {| localStorage := localStorage w; prefers_dark := prefers_dark w;
     mql_listeners := mql_listeners w; hooks := hooks w; dirty := dirty w;
     dom := d; now := now w; log := log w |}.

Definition emit (e : Event) (w : World) : World :=
  {| localStorage := localStorage w; prefers_dark := prefers_dark w;
     mql_listeners := mql_listeners w; hooks := hooks w; dirty := dirty w;
     dom := dom w; now := now w; log := log w ++ [e] |}.

(** ** The effect monad: state passing with exceptions

    A thrown exception keeps the state reached so far. *)

Definition JS (A : Type) : Type := World -> completion A * World.

Definition ret {A} (a : A) : JS A := fun w => (Normal a, w).

Definition bind {A B} (m : JS A) (k : A -> JS B) : JS B :=
  fun w =>
    match m w with
    | (Normal a, w') => k a w'
    | (Throw e, w') => (Throw e, w')
    end.

Notation "'let!' x ':=' m 'in' k" := (bind m (fun x => k))
  (at level 10, x name, m at level 100, k at level 200).
Notation "'do!' m 'in' k" := (bind m (fun _ => k))
  (at level 10, m at level 100, k at level 200).

Definition modify (f : World -> World) : JS unit := fun w => (Normal tt, f w).
Definition gets {A} (f : World -> A) : JS A := fun w => (Normal (f w), w).

(** ** Browser calls of the component *)

Definition localStorage_getItem (key : string) : JS (option string) :=
  fun w =>
    match getItem key (localStorage w) with
    | Normal v => (Normal v, w)
    | Throw e => (Throw e, w)
    end.

Definition localStorage_setItem (key value : string) : JS unit :=
  fun w =>
    match setItem key value (localStorage w) with
    | Normal s => (Normal tt, emit (EvSetItem key value true) (with_localStorage s w))
    | Throw e => (Throw e, emit (EvSetItem key value false) w)
    end.

(** [systemDarkMode.addEventListener("change", l)]. Every run of the effect
    makes a new closure, so no registration is dropped as a duplicate. *)
Definition addEventListener (l : Listener) : JS unit :=
  modify (fun w => with_mql_listeners (mql_listeners w ++ [l]) w).

(** [new Date()] *)
Definition new_Date : JS nat := gets now.

(** ** The page's collaborators

    [window.updateDarkMode] and [window.isDarkMode] are declared by the
    component ([declare global]) and defined by the page around it. *)

Definition os_signal (w : World) : Scheme :=
  if prefers_dark w then SchemeDark else SchemeLight.

(** Modelled from the spec: [resolveEffective] of the Preference Store, which
    no file of the component defines. A preference other than [System] is
    returned as the scheme it names; [System] yields the signal of the
    operating system. *)
Definition resolveEffective (p : Preference) (osSignal : Scheme) : Scheme :=
  match p with
  | System => osSignal
  | Light => SchemeLight
  | Dark => SchemeDark
  end.

(** Modelled from the spec: how the Preference Store reads a stored value.
    One of the three literal strings is that variant; any other string, and
    no string, is [System]. *)
Definition parsePreference (v : option string) : Preference :=
  match v with
  | Some "light" => Light
  | Some "dark" => Dark
  | _ => System
  end.

(** Modelled from the spec: [get()] of the Preference Store as the page's own
    routines use it; a read that fails falls back to [System]. *)
Definition Store_get (s : Storage) : Preference :=
  match getItem color_scheme s with
  | Normal v => parsePreference v
  | Throw _ => System
  end.

(** Modelled from the spec: the effective scheme of the page, derived on
    demand from the stored preference and the live signal of the operating
    system, never cached. *)
Definition effective_scheme (w : World) : Scheme :=
  resolveEffective (Store_get (localStorage w)) (os_signal w).

(** Modelled from the spec: [window.isDarkMode()], whose definition is the
    page's; it reports whether the page is shown in the dark scheme. *)
Definition window_isDarkMode : JS bool :=
  gets (fun w =>
    match effective_scheme w with
    | SchemeDark => true
    | SchemeLight => false
    end).

(** Modelled from the spec: [window.updateDarkMode()], the page's restyle
    routine, whose definition is the page's. What it does to the document is
    left open; the call is recorded together with the value the routine
    finds in the storage. *)
Definition window_updateDarkMode : JS unit :=
  modify (fun w => emit (EvUpdateDarkMode (items (localStorage w) !! color_scheme)) w).

(** ** [DarkModeSwitch.tsx] *)

Definition set_preference_slot (v : string) (h : Hooks) : Hooks :=
  {| preference_slot := Some v; date_slot := date_slot h; effect_slot := effect_slot h |}.

Definition set_date_slot (d : nat) (h : Hooks) : Hooks :=
  {| preference_slot := preference_slot h; date_slot := Some d; effect_slot := effect_slot h |}.

Definition set_effect_slot (e : EffectSlot) (h : Hooks) : Hooks :=
  {| preference_slot := preference_slot h; date_slot := date_slot h; effect_slot := e |}.

(** The initialiser [() => localStorage.getItem("color_scheme") ?? "system"]
    (the spec's [get()]). *)
Definition initialPreference : JS string :=
  let! v := localStorage_getItem color_scheme in
  ret (default "system" v).

(** [const [preference, setPreference] = useState(...)]: the initialiser runs
    on the first render only. *)
Definition useState_preference : JS string :=
  let! h := gets hooks in
  match preference_slot h with
  | Some v => ret v
  | None =>
      let! v := initialPreference in
      do! modify (fun w => with_hooks (set_preference_slot v (hooks w)) w) in
      ret v
  end.

(** The setter of a [useState] pair stores the value and queues a render
    when the value differs from the held one. *)
Definition setPreference (v : string) : JS unit :=
  modify (fun w =>
    match preference_slot (hooks w) with
    | Some cur =>
        if decide (cur = v) then w
        else with_dirty true (with_hooks (set_preference_slot v (hooks w)) w)
    | None => w
    end).

(** [setDate]: a [Date] made by [new Date()] is a new object, never identical
    to the held one, so the setter always queues a render. Once the
    component is gone the setter does nothing. *)
Definition setDate (d : nat) : JS unit :=
  modify (fun w =>
    match date_slot (hooks w) with
    | Some _ => with_dirty true (with_hooks (set_date_slot d (hooks w)) w)
    | None => w
    end).

(** [function rerender() { return setDate(new Date()); }] *)
Definition rerender : JS unit :=
  let! d := new_Date in
  setDate d.

(** [useRerender]: [const [, setDate] = useState(() => new Date())]. *)
Definition useRerender : JS unit :=
  let! h := gets hooks in
  match date_slot h with
  | Some _ => ret tt
  | None =>
      let! d := new_Date in
      modify (fun w => with_hooks (set_date_slot d (hooks w)) w)
  end.

(** The callback of [useEffect]: it registers the listener and returns
    nothing. *)
Definition DarkModeSwitch_effect : JS (option Listener) :=
  do! addEventListener CallRerender in
  ret None.

(** [useEffect(..., [])]: scheduled by the first render; with an empty
    dependency array no later render schedules it again. *)
Definition useEffect : JS unit :=
  modify (fun w =>
    match effect_slot (hooks w) with
    | NotRun => with_hooks (set_effect_slot Pending (hooks w)) w
    | Pending | Ran _ => w
    end).

(** [updatePreference] *)
Definition updatePreference (preference : Preference) : JS unit :=
  do! setPreference (Preference_value preference) in
  do! localStorage_setItem color_scheme (Preference_value preference) in
  window_updateDarkMode.

(** The body of the component: one render. *)
Definition DarkModeSwitch : JS VNode :=
  let! preference := useState_preference in
  do! useRerender in
  do! useEffect in
  let! isDark := window_isDarkMode in
  ret {| label_icon := if isDark then Moon else Sun; select_value := preference |}.

(** ** Preact around the component *)

Definition run_effects : JS unit :=
  let! h := gets hooks in
  match effect_slot h with
  | Pending =>
      let! c := DarkModeSwitch_effect in
      modify (fun w => with_hooks (set_effect_slot (Ran c) (hooks w)) w)
  | NotRun | Ran _ => ret tt
  end.

(** A render, the commit of its output, then the scheduled effects. *)
Definition render : JS unit :=
  let! v := DarkModeSwitch in
  do! modify (fun w => emit (EvRender v) (with_dirty false (with_dom (Some v) w))) in
  run_effects.

(** Mounting is the first render, on fresh hook slots. *)
Definition mount : JS unit :=
  do! modify (with_hooks no_hooks) in
  render.

(** [removeEventListener("change", l)] drops the first registration of [l]. *)
Definition remove_listener (l : Listener) (ls : list Listener) : list Listener :=
  match ls with
  | [] => []
  | x :: ls' =>
      match l, x with
      | CallRerender, CallRerender => ls'
      end
  end.

(** Unmounting runs the clean-up of the effect, when it returned one, and
    drops the instance. *)
Definition unmount : JS unit :=
  let! h := gets hooks in
  do! match effect_slot h with
      | Ran (Some l) => modify (fun w => with_mql_listeners (remove_listener l (mql_listeners w)) w)
      | Ran None | NotRun | Pending => ret tt
      end in
  modify (fun w => with_dirty false (with_dom None (with_hooks no_hooks w))).

Definition call_listener (l : Listener) : JS unit :=
  match l with
  | CallRerender => rerender
  end.

Fixpoint call_listeners (ls : list Listener) : JS unit :=
  match ls with
  | [] => ret tt
  | l :: ls' => do! call_listener l in call_listeners ls'
  end.

(** What happens to the page after the component is mounted. *)
Inductive PageEvent :=
| UserSelects (p : Preference)
| OsSignalFlips
| Unmount.

Definition handle (ev : PageEvent) : JS unit :=
  match ev with
  | UserSelects p =>
      let! d := gets dom in
      match d with
      | Some _ => updatePreference p
      | None => ret tt
      end
  | OsSignalFlips =>
      do! modify (fun w => with_prefers_dark (negb (prefers_dark w)) w) in
      let! ls := gets mql_listeners in
      call_listeners ls
  | Unmount => unmount
  end.

(** An exception that leaves a handler or a render is reported and the page
    goes on. *)
Definition settle {A} (r : completion A * World) : World :=
  match r with
  | (Normal _, w) => w
  | (Throw e, w) => emit (EvUncaught e) w
  end.

Definition flush (w : World) : World :=
  if dirty w then settle (render w) else w.

Definition dispatch (ev : PageEvent) (w : World) : World :=
  flush (settle (handle ev w)).

Definition run (evs : list PageEvent) (w : World) : World :=
  fold_left (fun w ev => dispatch ev w) evs w.

(** A page that has just loaded: nothing mounted, nothing logged. *)
Definition fresh_page (s : Storage) (dark : bool) : World :=
  {| localStorage := s; prefers_dark := dark; mql_listeners := [];
     hooks := no_hooks; dirty := false; dom := None; now := 0; log := [] |}.

Definition is_restyle (e : Event) : bool :=
  match e with
  | EvUpdateDarkMode _ => true
  | EvSetItem _ _ _ | EvRender _ | EvUncaught _ => false
  end.

Definition is_write (e : Event) : bool :=
  match e with
  | EvSetItem _ _ _ => true
  | EvUpdateDarkMode _ | EvRender _ | EvUncaught _ => false
  end.

(** How often the page's restyle routine was called, and how often a storage
    write was attempted, in a stretch of the log. *)
Definition restyle_count (evs : list Event) : nat := length (List.filter is_restyle evs).
Definition write_count (evs : list Event) : nat := length (List.filter is_write evs).

(** ** The post index ([src/pages/index.astro]) *)

(** An entry of the [blog] collection. [pubDate] is a [Date] the collection
    has parsed; [valueOf()] is its time value, a whole number of
    milliseconds. *)
Record PostData := {
  title : string;
  description : string;
  pubDate : Z
}.

Record Post := {
  slug : string;
  data : PostData
}.

Section ArraySort.
Context {A : Type}.
Variable comparefn : A -> A -> Z.

(** [Array.prototype.sort(comparefn)] as a stable insertion sort: an
    element moves behind those the comparator puts strictly before it
    ([comparefn(x, y) > 0]). *)
Fixpoint sort_insert (x : A) (l : list A) : list A :=
  match l with
  | [] => [x]
  | y :: l' =>
      if (0 <? comparefn x y)%Z then y :: sort_insert x l'
      else x :: y :: l'
  end.

Fixpoint Array_sort (l : list A) : list A :=
  match l with
  | [] => []
  | x :: l' => sort_insert x (Array_sort l')
  end.

(** The comparator lets [x] stand before [y]. *)
Definition in_order (x y : A) : Prop := (comparefn x y <= 0)%Z.
End ArraySort.

(** [(a, b) => b.data.pubDate.valueOf() - a.data.pubDate.valueOf()] *)
Definition by_pubDate_desc (a b : Post) : Z :=
  (pubDate (data b) - pubDate (data a))%Z.

(** [const posts = (await getCollection("blog")).sort(...)] *)
Definition posts (collection : list Post) : list Post :=
  Array_sort by_pubDate_desc collection.

(** One [<li>] of the list: the date, the link and its text, the
    description. *)
Record ListItem := {
  li_date : Z;
  li_href : string;
  li_title : string;
  li_description : string
}.

Definition render_post (post : Post) : ListItem :=
  {| li_date := pubDate (data post);
     li_href := "/" ++ slug post ++ "/";
     li_title := title (data post);
     li_description := description (data post) |}.

(** [posts.map((post) => (<li>...</li>))] *)
Definition index_page (collection : list Post) : list ListItem :=
  map render_post (posts collection).

(** ** The feed ([src/pages/rss.xml.js]) and the names of view transitions *)

(** An item of the feed: [{ ...post.data, link }]. *)
Record RSSItem := {
  item_data : PostData;
  link : string
}.

(** What [GET] hands to [rss(...)]. *)
Record RSSOptions := {
  rss_title : string;
  site : string;
  feed_items : list RSSItem
}.

(** [(post) => ({ ...post.data, link: `/${post.slug}/` })] *)
Definition feed_item (post : Post) : RSSItem :=
  {| item_data := data post; link := "/" ++ slug post ++ "/" |}.

(** [GET(context)], on the collection [getCollection('blog')] returns: the
    argument of [rss]. The collection is passed on as it comes. *)
Definition GET (context_site : string) (collection : list Post) : RSSOptions :=
  {| rss_title := "Gui Sehn";
     site := context_site;
     feed_items := map feed_item collection |}.

(** The [transition:name]s of one [<li>] of the index, in document order:
    [`date-${post.slug}`] on the [<time>], [`title-${post.slug}`] on the
    link. *)
Definition li_transition_names (post : Post) : list string :=
  ["date-" ++ slug post; "title-" ++ slug post].

(** All [transition:name]s of the index page. *)
Definition index_transition_names (collection : list Post) : list string :=
  flat_map li_transition_names (posts collection).

(** The [transition:name]s of a post's page ([src/layouts/BlogPost.astro]),
    with [slug] from [Astro.params]: on the [<time>] and on the [<h1>]. *)
Definition BlogPost_transition_names (slug : string) : list string :=
  ["date-" ++ slug; "title-" ++ slug].

(** ** The terminal script ([site.js]) *)

#[local] Set Warnings "-register-all".

(** The part of the DOM the script works on: text, and elements with their
    local name, their [className] and their child nodes. *)
Inductive Node :=
| Text (text : string)
| Element (localName className : string) (childNodes : list Node).

(** The selector ['pre'] on one node. *)
Definition is_pre (n : Node) : bool :=
  match n with
  | Element name _ _ => String.eqb name "pre"
  | Text _ => false
  end.

(** [n.querySelector('pre')]: the first descendant of [n], in tree order,
    that is a [pre], as the path of child indices that leads to it from
    [n]; [None] is [null]. *)
Fixpoint querySelector_pre (n : Node) : option (list nat) :=
  match n with
  | Text _ => None
  | Element _ _ kids =>
      (fix first_of (ks : list Node) (i : nat) : option (list nat) :=
         match ks with
         | [] => None
         | k :: ks' =>
             if is_pre k then Some [i]
             else match querySelector_pre k with
                  | Some path => Some (i :: path)
                  | None => first_of ks' (S i)
                  end
         end) kids 0
  end.

(** The search of [querySelector_pre] through child nodes [ks], the first of
    which has index [i]. *)
Fixpoint first_pre (ks : list Node) (i : nat) : option (list nat) :=
  match ks with
  | [] => None
  | k :: ks' =>
      if is_pre k then Some [i]
      else match querySelector_pre k with
           | Some path => Some (i :: path)
           | None => first_pre ks' (S i)
           end
  end.

(** What a DOM call that may raise [NotFoundError] comes to. *)
Inductive attempt (A : Type) :=
| Done (a : A)
| NotFoundError.
Arguments Done {A} a.
Arguments NotFoundError {A}.

(** [parent.insertBefore(newChild, refChild)] on the child nodes of
    [parent], [refChild] given by its path from [parent]: [null] appends; a
    child of [parent] gets [newChild] in front of it; any other node is not
    a child of [parent] and the call raises [NotFoundError]. *)
Definition insertBefore (newChild : Node) (refChild : option (list nat))
    (childNodes : list Node) : attempt (list Node) :=
  match refChild with
  | None => Done (childNodes ++ [newChild])%list
  | Some [i] => Done (take i childNodes ++ newChild :: drop i childNodes)%list
  | Some _ => NotFoundError
  end.

(** [var top = document.createElement('div'); top.className = 'top'] *)
Definition top_bar : Node := Element "div" "top" [].

(** The callback of [terminals.forEach]: [pre] is looked up below the
    terminal and the new [div] is inserted before it. (The list holds
    elements only; a text node would be left alone.) *)
Definition add_top (terminal : Node) : attempt Node :=
  match terminal with
  | Element name cls kids =>
      match insertBefore top_bar (querySelector_pre terminal) kids with
      | Done kids' => Done (Element name cls kids')
      | NotFoundError => NotFoundError
      end
  | Text _ => Done terminal
  end.

(** [terminals.forEach(...)] over the elements [querySelectorAll('.terminal')]
    has returned, taken as separate subtrees (no terminal inside another):
    the terminals as the script leaves them, and whether it stopped on an
    exception. *)
Fixpoint forEach_add_top (terminals : list Node) : list Node * bool :=
  match terminals with
  | [] => ([], false)
  | t :: ts =>
      match add_top t with
      | Done t' => let (ts', thrown) := forEach_add_top ts in (t' :: ts', thrown)
      | NotFoundError => (t :: ts, true)
      end
  end.

(** Neither [k] nor a node below it is a [pre]. *)
Definition pre_free (k : Node) : Prop :=
  is_pre k = false /\ querySelector_pre k = None.

(** The terminal of the posts: text, a [pre], text. *)
Definition sample_terminal : Node :=
  Element "div" "terminal"
    [Text " "; Element "pre" "" [Text "START TRANSACTION;"]; Text " "].

(** A terminal whose [pre] sits inside a wrapper. *)
Definition wrapped_terminal : Node :=
  Element "div" "terminal"
    [Element "div" "scroll" [Element "pre" "" [Text "COMMIT;"]]; Element "pre" "" []].

(** ** Notions used in the statements *)

(** The icon a render shows. *)
Definition icon_of (s : Scheme) : Icon :=
  match s with
  | SchemeDark => Moon
  | SchemeLight => Sun
  end.

(** [w'] differs from [w] at most in the date slot and the render queue. *)
Record only_queues_render (w w' : World) : Prop := {
  oqr_localStorage : localStorage w' = localStorage w;
  oqr_prefers_dark : prefers_dark w' = prefers_dark w;
  oqr_listeners : mql_listeners w' = mql_listeners w;
  oqr_dom : dom w' = dom w;
  oqr_log : log w' = log w;
  oqr_preference : preference_slot (hooks w') = preference_slot (hooks w);
  oqr_effect : effect_slot (hooks w') = effect_slot (hooks w);
  oqr_date : is_Some (date_slot (hooks w)) <-> is_Some (date_slot (hooks w'));
  oqr_dirty : dirty w = true -> dirty w' = true
}.

(** The component is on the page: its hook slots are filled, its effect has
    run and returned no clean-up, its listener is registered and its output
    is displayed. *)
Record mounted (w : World) : Prop := {
  mounted_preference : is_Some (preference_slot (hooks w));
  mounted_date : is_Some (date_slot (hooks w));
  mounted_effect : effect_slot (hooks w) = Ran None;
  mounted_listener : In CallRerender (mql_listeners w);
  mounted_dom : is_Some (dom w)
}.

(** The storage holds the preference the component holds, as the spec's
    Preference Store reads them. *)
Definition in_sync (w : World) : Prop :=
  exists s, preference_slot (hooks w) = Some s /\
            Store_get (localStorage w) = parsePreference (Some s).

(** The registrations are [ls], and the component either is mounted with its
    effect run and no clean-up to call, or is gone with nothing queued. *)
Definition listeners_fixed (ls : list Listener) (w : World) : Prop :=
  mql_listeners w = ls /\
  ((is_Some (preference_slot (hooks w)) /\ effect_slot (hooks w) = Ran None) \/
   (hooks w = no_hooks /\ dirty w = false)).

(** The storage takes writes, no render is queued, and what the select
    shows, what the component holds and what a read of the storage gives are
    one and the same string; or the component is not on the page. *)
Definition shows_stored (w : World) : Prop :=
  mode (localStorage w) = Enabled /\
  dirty w = false /\
  match preference_slot (hooks w) with
  | Some s =>
      default "system" (items (localStorage w) !! color_scheme) = s /\
      exists v, dom w = Some v /\ select_value v = s
  | None => hooks w = no_hooks /\ dom w = None
  end.

(** The component is not on the page and nothing is queued. *)
Definition gone (w : World) : Prop :=
  hooks w = no_hooks /\ dirty w = false /\ dom w = None.

(** The [<option>] the [select] of a render shows: the one whose [value] is
    the [value] given to the [select] (lines 52 to 54 have ["system"],
    ["light"] and ["dark"]); when no option has that value, none is shown. *)
Definition selected_option (v : VNode) : option Preference :=
  if decide (select_value v = "system") then Some System
  else if decide (select_value v = "light") then Some Light
  else if decide (select_value v = "dark") then Some Dark
  else None.

(** ** Sample data *)

(** A storage in mode [m] holding [v] under the key. *)
Definition storage_of (m : StorageMode) (v : option string) : Storage :=
  {| mode := m;
     items := match v with Some x => {[ color_scheme := x ]} | None => ∅ end |}.

(** The three strings the spec's storage contract allows. *)
Definition valid_value (v : string) : Prop :=
  v = "system" \/ v = "light" \/ v = "dark".

(** The page after the component has been mounted on it. *)
Definition mounted_page (m : StorageMode) (v : option string) (dark : bool) : World :=
  snd (mount (fresh_page (storage_of m v) dark)).

Definition sample_post (s : string) (d : Z) : Post :=
  {| slug := s; data := {| title := s; description := ""; pubDate := d |} |}.

Definition sample_collection : list Post :=
  [sample_post "a" 3; sample_post "b" 10; sample_post "c" 3; sample_post "d" 7].

(** * Properties *)

(** ** The read at initialisation *)

Lemma localStorage_getItem_eq key w :
  localStorage_getItem key w =
  (match mode (localStorage w) with
   | Blocked => Throw SecurityError
   | Enabled | QuotaFull => Normal (items (localStorage w) !! key)
   end, w).
Proof. unfold localStorage_getItem, getItem. by destruct (mode _). Qed.

Lemma initialPreference_eq w :
  initialPreference w =
  (match mode (localStorage w) with
   | Blocked => Throw SecurityError
   | Enabled | QuotaFull =>
       Normal (default "system" (items (localStorage w) !! color_scheme))
   end, w).
Proof.
  unfold initialPreference, bind. rewrite localStorage_getItem_eq.
  by destruct (mode _).
Qed.

Example initialPreference_absent :
  initialPreference (fresh_page (storage_of Enabled None) false)
  = (Normal "system", fresh_page (storage_of Enabled None) false).
Proof. reflexivity. Qed.

Example initialPreference_light :
  fst (initialPreference (fresh_page (storage_of Enabled (Some "light")) true))
  = Normal "light".
Proof. reflexivity. Qed.

(** C1, as the spec has it, fails: with ["banana"] stored under the key, a
    string outside the three valid ones, the read does not return
    ["system"]; it returns ["banana"]. *)
Lemma invalid_stored_value_is_kept :
  mode (localStorage (fresh_page (storage_of Enabled (Some "banana")) false)) = Enabled /\
  items (localStorage (fresh_page (storage_of Enabled (Some "banana")) false))
    !! color_scheme = Some "banana" /\
  ~ valid_value "banana" /\
  fst (initialPreference (fresh_page (storage_of Enabled (Some "banana")) false))
    = Normal "banana" /\
  fst (initialPreference (fresh_page (storage_of Enabled (Some "banana")) false))
    <> Normal (Preference_value System).
Proof.
  split; [reflexivity|]. split; [reflexivity|]. split.
  - intros [E | [E | E]]; discriminate E.
  - split; [reflexivity|]. vm_compute. discriminate.
Qed.

(** C1 (amended): when the storage can be read, the read at initialisation
    returns ["system"] for an absent value and returns any stored string,
    valid or not, unchanged. *)
Theorem initialPreference_default_only_when_absent (w : World) :
  mode (localStorage w) <> Blocked ->
  match items (localStorage w) !! color_scheme with
  | None => fst (initialPreference w) = Normal (Preference_value System)
  | Some v => fst (initialPreference w) = Normal v
  end.
Proof.
  intros Hm. rewrite initialPreference_eq. simpl.
  destruct (mode (localStorage w)); try congruence;
    by destruct (items (localStorage w) !! color_scheme).
Qed.

Lemma initialPreference_default_only_when_absent_witness :
  fst (initialPreference (fresh_page (storage_of Enabled (Some "banana")) false))
  = Normal "banana".
Proof.
  apply (initialPreference_default_only_when_absent
           (fresh_page (storage_of Enabled (Some "banana")) false)).
  simpl. discriminate.
Defined.

(** C2, as the spec has it, fails: with the storage disabled for the page
    the read raises [SecurityError]; it returns no value, and so not
    ["system"]. *)
Lemma blocked_storage_read_throws :
  getItem color_scheme (localStorage (fresh_page (storage_of Blocked None) false))
    = Throw SecurityError /\
  fst (initialPreference (fresh_page (storage_of Blocked None) false))
    = Throw SecurityError /\
  ~ (exists v : string,
       fst (initialPreference (fresh_page (storage_of Blocked None) false)) = Normal v).
Proof.
  split; [reflexivity|]. split; [reflexivity|].
  intros [v Hv]. discriminate Hv.
Qed.

(** C2 (amended): the read returns a value exactly when [getItem] does, the
    stored string or ["system"] for none; an exception of [getItem] is not
    caught: it leaves the initialiser, and with it the first render. *)
Theorem initialPreference_propagates_exception (w : World) :
  match getItem color_scheme (localStorage w) with
  | Normal v => initialPreference w = (Normal (default "system" v), w)
  | Throw e =>
      initialPreference w = (Throw e, w) /\
      fst (mount w) = Throw e /\
      dom (snd (mount w)) = dom w
  end.
Proof.
  rewrite initialPreference_eq. unfold getItem.
  destruct (mode (localStorage w)) eqn:Hm; try reflexivity.
  split; [reflexivity|].
  unfold mount, render, DarkModeSwitch, useState_preference, bind, modify, gets.
  simpl. rewrite initialPreference_eq. simpl. rewrite Hm. by split.
Qed.

(** ** The change handler *)

(** What [setPreference] leaves alone, and what it sets. *)
Lemma setPreference_frame v w :
  let w1 := snd (setPreference v w) in
  fst (setPreference v w) = Normal tt /\
  localStorage w1 = localStorage w /\
  log w1 = log w /\
  mql_listeners w1 = mql_listeners w /\
  prefers_dark w1 = prefers_dark w /\
  dom w1 = dom w /\
  date_slot (hooks w1) = date_slot (hooks w) /\
  effect_slot (hooks w1) = effect_slot (hooks w).
Proof.
  unfold setPreference, modify. simpl.
  destruct (preference_slot (hooks w)) as [cur|]; [|done].
  by destruct (decide (cur = v)).
Qed.

Lemma setPreference_slot v w cur :
  preference_slot (hooks w) = Some cur ->
  preference_slot (hooks (snd (setPreference v w))) = Some v.
Proof.
  intros Hc. unfold setPreference, modify. simpl. rewrite Hc.
  destruct (decide (cur = v)) as [->|]; [exact Hc | reflexivity].
Qed.

(** The handler, case by case on what the storage allows. *)
Lemma updatePreference_eq p w :
  let v := Preference_value p in
  let w1 := snd (setPreference v w) in
  updatePreference p w =
  match mode (localStorage w) with
  | Enabled =>
      (Normal tt,
       emit (EvUpdateDarkMode (Some v))
         (emit (EvSetItem color_scheme v true)
            (with_localStorage
               {| mode := Enabled;
                  items := <[color_scheme := v]> (items (localStorage w)) |} w1)))
  | QuotaFull => (Throw QuotaExceededError, emit (EvSetItem color_scheme v false) w1)
  | Blocked => (Throw SecurityError, emit (EvSetItem color_scheme v false) w1)
  end.
Proof.
  intros v w1.
  destruct (setPreference_frame v w) as (Hr & Hs & _).
  unfold updatePreference, bind. fold v.
  destruct (setPreference v w) as [r w1'] eqn:Hsp. simpl in *. subst r w1.
  unfold localStorage_setItem, setItem. rewrite Hs.
  destruct (mode (localStorage w)); try reflexivity.
  unfold window_updateDarkMode, modify. simpl.
  by rewrite lookup_insert_eq.
Qed.

Lemma setItem_Normal key value s s' :
  setItem key value s = Normal s' ->
  mode s = Enabled /\ s' = {| mode := Enabled; items := <[key := value]> (items s) |}.
Proof.
  unfold setItem. destruct (mode s); intros H; try discriminate H.
  injection H as <-. by split.
Qed.

Lemma setItem_Throw key value s e :
  setItem key value s = Throw e ->
  mode s <> Enabled /\
  e = match mode s with Blocked => SecurityError | _ => QuotaExceededError end.
Proof.
  unfold setItem. destruct (mode s); intros H; try discriminate H;
    injection H as <-; by split.
Qed.

Example updatePreference_dark :
  let w := snd (mount (fresh_page (storage_of Enabled None) false)) in
  log (snd (updatePreference Dark w)) =
  (log w ++ [EvSetItem "color_scheme" "dark" true; EvUpdateDarkMode (Some "dark")])%list.
Proof. reflexivity. Qed.

(** C3: after a change to [p] that completes, the read at initialisation
    returns the string of [p]. *)
Theorem initialPreference_after_updatePreference (p : Preference) (w w' : World) :
  updatePreference p w = (Normal tt, w') ->
  initialPreference w' = (Normal (Preference_value p), w').
Proof.
  rewrite updatePreference_eq.
  destruct (mode (localStorage w)); intros H; try discriminate H.
  injection H as <-.
  rewrite initialPreference_eq. simpl. by rewrite lookup_insert_eq.
Qed.

Lemma initialPreference_after_updatePreference_witness :
  initialPreference (snd (updatePreference Dark (mounted_page Enabled (Some "light") true)))
  = (Normal "dark", snd (updatePreference Dark (mounted_page Enabled (Some "light") true))).
Proof.
  apply (initialPreference_after_updatePreference Dark
           (mounted_page Enabled (Some "light") true)).
  vm_compute. reflexivity.
Defined.

(** C4: an explicit preference is the effective scheme whatever the signal
    of the operating system; [System] follows the signal. *)
Theorem resolveEffective_spec (os : Scheme) :
  resolveEffective Light os = SchemeLight /\
  resolveEffective Dark os = SchemeDark /\
  resolveEffective System os = os.
Proof. by destruct os. Qed.

(** ** Renders and listeners *)

Lemma only_queues_render_refl w : only_queues_render w w.
Proof. by constructor. Qed.

Lemma only_queues_render_trans w1 w2 w3 :
  only_queues_render w1 w2 -> only_queues_render w2 w3 -> only_queues_render w1 w3.
Proof.
  intros [] []. constructor; try congruence; [tauto | auto].
Qed.

Lemma rerender_spec w :
  exists w', rerender w = (Normal tt, w') /\
    only_queues_render w w' /\
    (is_Some (date_slot (hooks w)) -> dirty w' = true) /\
    (date_slot (hooks w) = None -> w' = w).
Proof.
  unfold rerender, bind, new_Date, gets, setDate, modify.
  destruct (date_slot (hooks w)) as [d|] eqn:Hd; eexists; (split; [reflexivity|]).
  - split; [|split; [done | intros; discriminate]].
    constructor; simpl; done.
  - split; [apply only_queues_render_refl|].
    split; [intros [? ?]; discriminate | done].
Qed.

Lemma call_listeners_spec ls w :
  exists w', call_listeners ls w = (Normal tt, w') /\
    only_queues_render w w' /\
    (ls <> [] -> is_Some (date_slot (hooks w)) -> dirty w' = true) /\
    (date_slot (hooks w) = None -> w' = w).
Proof.
  revert w. induction ls as [|l ls IH]; intros w.
  - exists w. split; [reflexivity|]. split; [apply only_queues_render_refl|done].
  - destruct l. simpl. unfold bind.
    destruct (rerender_spec w) as (w1 & -> & Hf1 & Hd1 & Hn1).
    destruct (IH w1) as (w2 & -> & Hf2 & Hd2 & Hn2).
    exists w2. split; [reflexivity|]. split; [|split].
    + eapply only_queues_render_trans; eauto.
    + intros _ Hs. apply (oqr_dirty _ _ Hf2). auto.
    + intros Hn. rewrite <- (Hn1 Hn). apply Hn2. rewrite (Hn1 Hn). exact Hn.
Qed.

(** A render of a mounted component: it shows the held preference and the
    icon of the effective scheme, and touches neither the storage nor the
    preference. *)
Lemma render_spec w cur :
  preference_slot (hooks w) = Some cur ->
  let v := {| label_icon := icon_of (effective_scheme w); select_value := cur |} in
  exists w', render w = (Normal tt, w') /\
    localStorage w' = localStorage w /\
    prefers_dark w' = prefers_dark w /\
    preference_slot (hooks w') = Some cur /\
    dom w' = Some v /\
    dirty w' = false /\
    log w' = (log w ++ [EvRender v])%list /\
    (forall c, effect_slot (hooks w) = Ran c ->
       effect_slot (hooks w') = Ran c /\ mql_listeners w' = mql_listeners w /\
       date_slot (hooks w') = match date_slot (hooks w) with
                              | Some d => Some d
                              | None => Some (now w)
                              end).
Proof.
  intros Hc v. subst v.
  unfold render, DarkModeSwitch, useState_preference, useRerender, useEffect,
    window_isDarkMode, run_effects, DarkModeSwitch_effect, addEventListener,
    bind, gets, modify, ret.
  rewrite Hc. simpl.
  destruct (date_slot (hooks w)) as [d|] eqn:Hd; simpl; rewrite ?Hd;
    destruct (effect_slot (hooks w)) eqn:He; simpl; rewrite ?He; simpl;
    unfold effective_scheme; simpl;
    destruct (resolveEffective _ _); simpl;
    eexists; (split; [reflexivity|]); simpl;
    repeat split; try done; congruence.
Qed.

(** ** A selection in the control *)

Example select_dark_on_fresh_page :
  let w := snd (mount (fresh_page (storage_of Enabled None) false)) in
  let w' := dispatch (UserSelects Dark) w in
  items (localStorage w') !! color_scheme = Some "dark" /\
  dom w' = Some {| label_icon := Moon; select_value := "dark" |} /\
  restyle_count (log w') = 1.
Proof. by vm_compute. Qed.

(** C5, as the spec has it, fails: on a mounted page whose storage holds
    ["light"] and has its quota used up, the selection of [Dark] is not
    written (the key still holds ["light"]) and the restyle routine is not
    called at all. *)
Lemma selection_with_failing_write_is_not_stored :
  is_Some (dom (mounted_page QuotaFull (Some "light") true)) /\
  items (localStorage (dispatch (UserSelects Dark)
                         (mounted_page QuotaFull (Some "light") true)))
    !! color_scheme = Some "light" /\
  write_count (log (dispatch (UserSelects Dark)
                      (mounted_page QuotaFull (Some "light") true))) = 1 /\
  restyle_count (log (dispatch (UserSelects Dark)
                        (mounted_page QuotaFull (Some "light") true))) = 0.
Proof.
  split; [by eexists|]. split; [by vm_compute|]. split; by vm_compute.
Qed.

(** C5 (amended): a selection of [p] in the control, with a storage that takes the
    write, stores the string of [p] under the key, makes it the held
    preference and calls the page's restyle routine exactly once. *)
Theorem selection_writes_sets_and_restyles_once
    (w : World) (p : Preference) (cur : string) (d : VNode) (s' : Storage) :
  dom w = Some d ->
  preference_slot (hooks w) = Some cur ->
  setItem color_scheme (Preference_value p) (localStorage w) = Normal s' ->
  let v := Preference_value p in
  let w' := dispatch (UserSelects p) w in
  fst (updatePreference p w) = Normal tt /\
  localStorage w' = s' /\
  items (localStorage w') !! color_scheme = Some v /\
  preference_slot (hooks w') = Some v /\
  exists evs, log w' = (log w ++ evs)%list /\
    In (EvSetItem color_scheme v true) evs /\
    write_count evs = 1 /\
    restyle_count evs = 1.
Proof.
  intros Hdom Hcur Hset v w'.
  destruct (setItem_Normal _ _ _ _ Hset) as [Hmode ->].
  pose proof (updatePreference_eq p w) as Hup. cbv zeta in Hup. rewrite Hmode in Hup.
  split; [by rewrite Hup|].
  subst w'. unfold dispatch, handle, bind, gets. rewrite Hdom, Hup.
  destruct (setPreference_frame v w) as (_ & Hs & Hl & _).
  pose proof (setPreference_slot v w cur Hcur) as Hslot.
  fold v. fold v in Hs, Hl, Hslot. clear Hup.
  remember (snd (setPreference v w)) as w1 eqn:Hw1. clear Hw1.
  unfold settle, flush.
  match goal with |- context [dirty ?x] => set (w2 := x) end.
  assert (Hlog2 : log w2 = (log w ++ [EvSetItem color_scheme v true;
                                       EvUpdateDarkMode (Some v)])%list).
  { subst w2. simpl. rewrite Hl, <- app_assoc. reflexivity. }
  assert (Hst2 : localStorage w2 =
            {| mode := Enabled; items := <[color_scheme := v]> (items (localStorage w)) |})
    by reflexivity.
  assert (Hit2 : items (localStorage w2) !! color_scheme = Some v).
  { subst w2. simpl. apply lookup_insert_eq. }
  assert (Hp2 : preference_slot (hooks w2) = Some v) by exact Hslot.
  destruct (dirty w2).
  - destruct (render_spec w2 v Hp2) as (w3 & -> & Hs3 & _ & Hp3 & _ & _ & Hl3 & _).
    simpl. rewrite Hs3. repeat split; try done.
    eexists. rewrite Hl3, Hlog2, <- app_assoc. split; [reflexivity|].
    simpl. by auto.
  - repeat split; try done.
    eexists. rewrite Hlog2. split; [reflexivity|]. simpl. by auto.
Qed.

Lemma selection_writes_sets_and_restyles_once_witness :
  preference_slot (hooks (dispatch (UserSelects Light) (mounted_page Enabled None true)))
  = Some "light".
Proof.
  refine (proj1 (proj2 (proj2 (proj2
    (selection_writes_sets_and_restyles_once (mounted_page Enabled None true) Light
       "system" {| label_icon := Moon; select_value := "system" |}
       (storage_of Enabled (Some "light")) _ _ _)))));
    vm_compute; reflexivity.
Defined.

(** C7, as the spec has it, fails: on a mounted page whose storage quota
    is used up, the selection of [Dark] does set the held preference, but
    the write raises, the exception leaves the handler, and the restyle
    routine is not called. *)
Lemma failed_write_blocks_restyle :
  is_Some (dom (mounted_page QuotaFull None false)) /\
  setItem color_scheme (Preference_value Dark)
    (localStorage (mounted_page QuotaFull None false)) = Throw QuotaExceededError /\
  preference_slot (hooks (dispatch (UserSelects Dark) (mounted_page QuotaFull None false)))
    = Some "dark" /\
  restyle_count (log (dispatch (UserSelects Dark) (mounted_page QuotaFull None false))) = 0 /\
  In (EvUncaught QuotaExceededError)
     (log (dispatch (UserSelects Dark) (mounted_page QuotaFull None false))).
Proof.
  split; [by eexists|]. split; [reflexivity|]. split; [by vm_compute|].
  split; [by vm_compute|]. vm_compute. tauto.
Qed.

(** C7 (amended): when the write fails, the held preference is already the
    new value and the write was attempted once, with no retry; the exception
    of the write leaves the handler, the storage is as it was and the
    restyle routine is not called. *)
Theorem failed_write_keeps_state_skips_restyle
    (w : World) (p : Preference) (cur : string) (e : DOMException) :
  preference_slot (hooks w) = Some cur ->
  setItem color_scheme (Preference_value p) (localStorage w) = Throw e ->
  let v := Preference_value p in
  exists w', updatePreference p w = (Throw e, w') /\
    preference_slot (hooks w') = Some v /\
    localStorage w' = localStorage w /\
    log w' = (log w ++ [EvSetItem color_scheme v false])%list /\
    restyle_count (log w') = restyle_count (log w).
Proof.
  intros Hcur Hset v.
  destruct (setItem_Throw _ _ _ _ Hset) as [Hmode ->].
  pose proof (updatePreference_eq p w) as Hup. cbv zeta in Hup. fold v in Hup.
  destruct (setPreference_frame v w) as (_ & Hs & Hl & _).
  pose proof (setPreference_slot v w cur Hcur) as Hslot.
  remember (snd (setPreference v w)) as w1 eqn:Hw1. clear Hw1.
  assert (Hcount : restyle_count (log w ++ [EvSetItem color_scheme v false])
                   = restyle_count (log w)).
  { unfold restyle_count. rewrite List.filter_app, length_app. simpl. lia. }
  destruct (mode (localStorage w)); [congruence | |];
    eexists; (split; [exact Hup|]); simpl; rewrite Hl; by repeat split.
Qed.

Lemma failed_write_keeps_state_skips_restyle_witness :
  exists w', updatePreference Dark (mounted_page QuotaFull None false)
             = (Throw QuotaExceededError, w') /\
    preference_slot (hooks w') = Some "dark" /\
    localStorage w' = localStorage (mounted_page QuotaFull None false) /\
    log w' = (log (mounted_page QuotaFull None false)
              ++ [EvSetItem color_scheme "dark" false])%list /\
    restyle_count (log w') = restyle_count (log (mounted_page QuotaFull None false)).
Proof.
  apply (failed_write_keeps_state_skips_restyle (mounted_page QuotaFull None false)
           Dark "system" QuotaExceededError).
  - vm_compute. reflexivity.
  - vm_compute. reflexivity.
Defined.

(** C8: every call of the restyle routine that the handler makes comes after
    the write of the new value went through, and finds that value in the
    storage. *)
Theorem restyle_follows_completed_write
    (w : World) (p : Preference) (i : nat) (stored : option string) :
  let v := Preference_value p in
  let w' := snd (updatePreference p w) in
  length (log w) <= i ->
  log w' !! i = Some (EvUpdateDarkMode stored) ->
  stored = Some v /\
  items (localStorage w') !! color_scheme = Some v /\
  exists j, length (log w) <= j /\ j < i /\
    log w' !! j = Some (EvSetItem color_scheme v true).
Proof.
  intros v w' Hi Hev. subst w'.
  pose proof (updatePreference_eq p w) as Hup. cbv zeta in Hup. fold v in Hup.
  destruct (setPreference_frame v w) as (_ & Hs & Hl & _).
  rewrite Hup in *. clear Hup.
  remember (snd (setPreference v w)) as w1 eqn:Hw1. clear Hw1.
  destruct (mode (localStorage w)); simpl in *; rewrite Hl in *.
  - rewrite <- app_assoc in *. rewrite lookup_app_r in Hev by exact Hi.
    destruct (i - length (log w)) as [|[|k]] eqn:Hk; simpl in Hev; try discriminate Hev.
    injection Hev as <-. split; [reflexivity|]. split; [apply lookup_insert_eq|].
    exists (length (log w)). split; [lia|]. split; [lia|].
    rewrite lookup_app_r by lia. by rewrite Nat.sub_diag.
  - rewrite lookup_app_r in Hev by exact Hi.
    destruct (i - length (log w)) as [|k]; simpl in Hev; discriminate Hev.
  - rewrite lookup_app_r in Hev by exact Hi.
    destruct (i - length (log w)) as [|k]; simpl in Hev; discriminate Hev.
Qed.

Lemma restyle_follows_completed_write_witness :
  exists j, length (log (mounted_page Enabled (Some "light") false)) <= j /\ j < 2 /\
    log (snd (updatePreference Dark (mounted_page Enabled (Some "light") false))) !! j
    = Some (EvSetItem color_scheme "dark" true).
Proof.
  refine (proj2 (proj2 (restyle_follows_completed_write
            (mounted_page Enabled (Some "light") false) Dark 2 (Some "dark") _ _))).
  - vm_compute. lia.
  - vm_compute. reflexivity.
Defined.

(** ** A change of the operating system's signal *)

Lemma mount_eq w :
  mount w =
  match mode (localStorage w) with
  | Blocked => (Throw SecurityError, with_hooks no_hooks w)
  | Enabled | QuotaFull =>
      let s := default "system" (items (localStorage w) !! color_scheme) in
      let v := {| label_icon := icon_of (effective_scheme w); select_value := s |} in
      (Normal tt,
       {| localStorage := localStorage w; prefers_dark := prefers_dark w;
          mql_listeners := mql_listeners w ++ [CallRerender];
          hooks := {| preference_slot := Some s; date_slot := Some (now w);
                      effect_slot := Ran None |};
          dirty := false; dom := Some v; now := now w;
          log := log w ++ [EvRender v] |})
  end.
Proof.
  unfold mount, render, DarkModeSwitch, useState_preference, bind, modify, gets.
  simpl. rewrite initialPreference_eq. simpl.
  unfold effective_scheme.
  destruct (mode (localStorage w)) eqn:Hm; try reflexivity; simpl;
    unfold Store_get, getItem; simpl; rewrite Hm;
    by destruct (resolveEffective _ _).
Qed.

Lemma mount_mounted w w' :
  mount w = (Normal tt, w') -> mounted w' /\ in_sync w'.
Proof.
  rewrite mount_eq.
  destruct (mode (localStorage w)) eqn:Hm; intros H; try discriminate H;
    injection H as <-; (split; [constructor; simpl; eauto; apply in_app_iff; simpl; auto|]);
    eexists; (split; [reflexivity|]); unfold Store_get, getItem; simpl; rewrite Hm;
    by destruct (items (localStorage w) !! color_scheme).
Qed.

Example os_flip_on_system :
  let w := snd (mount (fresh_page (storage_of Enabled None) false)) in
  let w' := dispatch OsSignalFlips w in
  dom w = Some {| label_icon := Sun; select_value := "system" |} /\
  dom w' = Some {| label_icon := Moon; select_value := "system" |} /\
  write_count (log w') = 0.
Proof. by vm_compute. Qed.



(** ** The listener over the life of the page *)

Lemma emit_listeners_fixed ls e w :
  listeners_fixed ls w -> listeners_fixed ls (emit e w).
Proof. intros H. exact H. Qed.

Lemma settle_listeners_fixed ls (r : completion unit) w :
  listeners_fixed ls w -> listeners_fixed ls (settle (r, w)).
Proof. destruct r; [done | apply emit_listeners_fixed]. Qed.

Lemma setPreference_listeners_fixed ls v w :
  listeners_fixed ls w -> listeners_fixed ls (snd (setPreference v w)).
Proof.
  intros [Hl [[[cur Hc] He] | [Hh Hd]]].
  - destruct (setPreference_frame v w) as (_ & _ & _ & Hl' & _ & _ & _ & He').
    split; [congruence|]. left. split; [|congruence].
    rewrite (setPreference_slot v w cur Hc). by eexists.
  - unfold setPreference, modify. simpl. rewrite Hh. simpl.
    split; [done|]. by right.
Qed.

Lemma updatePreference_listeners_fixed ls p w :
  listeners_fixed ls w -> listeners_fixed ls (settle (updatePreference p w)).
Proof.
  intros H. rewrite updatePreference_eq.
  pose proof (setPreference_listeners_fixed ls (Preference_value p) w H) as H1.
  destruct (mode (localStorage w)); exact H1.
Qed.

Lemma unmount_listeners_fixed ls w :
  listeners_fixed ls w -> listeners_fixed ls (settle (unmount w)).
Proof.
  intros [Hl [[_ He] | [Hh _]]]; unfold unmount, bind, gets, modify.
  - rewrite He. simpl. split; [done|]. by right.
  - rewrite Hh. simpl. split; [done|]. by right.
Qed.

Lemma os_flip_listeners_fixed ls w :
  listeners_fixed ls w -> listeners_fixed ls (settle (handle OsSignalFlips w)).
Proof.
  intros [Hl Hc]. unfold handle, bind, modify, gets.
  set (w0 := with_prefers_dark (negb (prefers_dark w)) w).
  destruct (call_listeners_spec (mql_listeners w0) w0) as (w1 & -> & Hf & _ & Hn).
  simpl. destruct Hc as [[Hp He] | [Hh Hd]].
  - split; [by rewrite (oqr_listeners _ _ Hf)|]. left.
    rewrite (oqr_preference _ _ Hf), (oqr_effect _ _ Hf). by split.
  - rewrite Hn by (simpl; by rewrite Hh). split; [done|]. right. by split.
Qed.

Lemma flush_listeners_fixed ls w :
  listeners_fixed ls w -> listeners_fixed ls (flush w).
Proof.
  intros H. unfold flush. destruct (dirty w) eqn:Hd; [|exact H].
  destruct H as [Hl [[[cur Hp] He] | [_ Hf]]]; [|congruence].
  destruct (render_spec w cur Hp) as (w' & -> & _ & _ & Hp' & _ & _ & _ & Hr).
  destruct (Hr None He) as (He' & Hl' & _). simpl.
  split; [congruence|]. left. split; [by eexists | exact He'].
Qed.

Lemma dispatch_listeners_fixed ls ev w :
  listeners_fixed ls w -> listeners_fixed ls (dispatch ev w).
Proof.
  intros H. unfold dispatch. apply flush_listeners_fixed.
  destruct ev as [p| |].
  - unfold handle, bind, gets. destruct (dom w).
    + by apply updatePreference_listeners_fixed.
    + exact H.
  - by apply os_flip_listeners_fixed.
  - by apply unmount_listeners_fixed.
Qed.

Lemma run_listeners_fixed ls evs w :
  listeners_fixed ls w -> listeners_fixed ls (run evs w).
Proof.
  revert w. induction evs as [|ev evs IH]; intros w H; [exact H|].
  simpl. apply IH. by apply dispatch_listeners_fixed.
Qed.

Example listener_after_many_events :
  let w := snd (mount (fresh_page (storage_of Enabled None) false)) in
  mql_listeners
    (run [OsSignalFlips; UserSelects Dark; OsSignalFlips; UserSelects System;
          Unmount; OsSignalFlips] w)
  = [CallRerender].
Proof. reflexivity. Qed.

(** C9: a mount that succeeds adds the listener once; whatever happens on the
    page afterwards (selections, signal changes and the renders they cause,
    even the unmount), the registrations stay exactly those, and the effect
    has returned no clean-up that could remove it. *)
Theorem listener_registered_once_never_removed
    (w w' : World) (evs : list PageEvent) :
  mount w = (Normal tt, w') ->
  mql_listeners (run evs w') = (mql_listeners w ++ [CallRerender])%list /\
  effect_slot (hooks w') = Ran None /\
  fst (DarkModeSwitch_effect w) = Normal None.
Proof.
  intros Hm.
  assert (Hfix : listeners_fixed (mql_listeners w ++ [CallRerender]) w').
  { rewrite mount_eq in Hm.
    destruct (mode (localStorage w)); try discriminate Hm; injection Hm as <-;
      (split; [reflexivity|]); left; simpl; split; eauto. }
  split; [exact (proj1 (run_listeners_fixed _ evs w' Hfix))|].
  split; [|reflexivity].
  destruct (mount_mounted w w' Hm) as [[] _]. assumption.
Qed.

Lemma listener_registered_once_never_removed_witness :
  mql_listeners (run [OsSignalFlips; UserSelects Light; Unmount]
                   (mounted_page Enabled (Some "dark") false))
  = [CallRerender].
Proof.
  refine (proj1 (listener_registered_once_never_removed
                   (fresh_page (storage_of Enabled (Some "dark")) false)
                   (mounted_page Enabled (Some "dark") false)
                   [OsSignalFlips; UserSelects Light; Unmount] _)).
  vm_compute. reflexivity.
Defined.

(** ** The post index *)

Section ArraySortFacts.
Context {A : Type}.
Variable comparefn : A -> A -> Z.

(** A comparator that puts [x] strictly after [y] does not put [y]
    strictly after [x]. *)
Hypothesis comparefn_asym :
  forall x y, (0 < comparefn x y)%Z -> (comparefn y x <= 0)%Z.

Lemma sort_insert_Permutation x l :
  Permutation (sort_insert comparefn x l) (x :: l).
Proof.
  induction l as [|y l IH]; simpl; [reflexivity|].
  destruct (0 <? comparefn x y)%Z; [|reflexivity].
  rewrite IH. apply perm_swap.
Qed.

Lemma Array_sort_Permutation l : Permutation (Array_sort comparefn l) l.
Proof.
  induction l as [|x l IH]; simpl; [reflexivity|].
  rewrite sort_insert_Permutation. by constructor.
Qed.

Lemma sort_insert_HdRel a x l :
  in_order comparefn a x ->
  HdRel (in_order comparefn) a l ->
  HdRel (in_order comparefn) a (sort_insert comparefn x l).
Proof.
  intros Hax Hal. destruct l as [|y l]; simpl; [by constructor|].
  destruct (0 <? comparefn x y)%Z; constructor; [|exact Hax].
  by inversion Hal.
Qed.

Lemma sort_insert_Sorted x l :
  Sorted (in_order comparefn) l -> Sorted (in_order comparefn) (sort_insert comparefn x l).
Proof.
  induction 1 as [|y l Hs IH Hhd]; simpl; [by repeat constructor|].
  destruct (0 <? comparefn x y)%Z eqn:Hc.
  - constructor; [exact IH|].
    apply sort_insert_HdRel; [|exact Hhd].
    apply comparefn_asym. by apply Z.ltb_lt.
  - constructor; [by constructor|]. constructor.
    apply Z.ltb_ge in Hc. exact Hc.
Qed.

Lemma Array_sort_Sorted l : Sorted (in_order comparefn) (Array_sort comparefn l).
Proof.
  induction l as [|x l IH]; simpl; [constructor | by apply sort_insert_Sorted].
Qed.

Lemma Sorted_adjacent (l : list A) i x y :
  Sorted (in_order comparefn) l -> l !! i = Some x -> l !! S i = Some y -> in_order comparefn x y.
Proof.
  intros Hs. revert i. induction Hs as [|a l Hs IH Hhd]; intros i Hx Hy;
    [discriminate Hx|].
  destruct i as [|i]; simpl in *.
  - injection Hx as <-. destruct l as [|b l]; [discriminate Hy|].
    simpl in Hy. injection Hy as <-. by inversion Hhd.
  - by eapply IH.
Qed.
End ArraySortFacts.

Lemma by_pubDate_desc_asym (a b : Post) :
  (0 < by_pubDate_desc a b)%Z -> (by_pubDate_desc b a <= 0)%Z.
Proof. unfold by_pubDate_desc. lia. Qed.

(** X20: every post of the collection is on the index page, once: the list
    items are those of the collection's posts, in another order at most. *)
Lemma index_page_Permutation (collection : list Post) :
  Permutation (index_page collection) (map render_post collection).
Proof.
  unfold index_page, posts. apply Permutation_map, Array_sort_Permutation.
Qed.

Example index_page_sample :
  map li_href (index_page sample_collection) = ["/b/"; "/d/"; "/a/"; "/c/"].
Proof. reflexivity. Qed.

(** C10: the index page shows the posts of the collection, each once, and
    of two posts next to each other on it the one listed first has the later
    or the same publication date. *)
Theorem index_page_newest_first
    (collection : list Post) (i : nat) (x y : ListItem) :
  Permutation (index_page collection) (map render_post collection) /\
  (index_page collection !! i = Some x ->
   index_page collection !! S i = Some y ->
   (li_date y <= li_date x)%Z).
Proof.
  split.
  { unfold index_page, posts. apply Permutation_map, Array_sort_Permutation. }
  unfold index_page. rewrite !list_lookup_fmap.
  intros Hx Hy.
  destruct (posts collection !! i) as [a|] eqn:Ha; [|discriminate Hx].
  destruct (posts collection !! S i) as [b|] eqn:Hb; [|discriminate Hy].
  simpl in Hx, Hy. injection Hx as <-. injection Hy as <-.
  pose proof (Sorted_adjacent by_pubDate_desc (posts collection) i a b
                (Array_sort_Sorted by_pubDate_desc by_pubDate_desc_asym collection)
                Ha Hb) as Hord.
  unfold in_order, by_pubDate_desc in Hord. simpl. lia.
Qed.

Lemma index_page_newest_first_witness :
  Permutation (index_page sample_collection) (map render_post sample_collection) /\
  (li_date (render_post (sample_post "a" 3))
   <= li_date (render_post (sample_post "d" 7)))%Z.
Proof.
  split.
  - exact (proj1 (index_page_newest_first sample_collection 0
                    (render_post (sample_post "b" 10))
                    (render_post (sample_post "d" 7)))).
  - apply (proj2 (index_page_newest_first sample_collection 1
                    (render_post (sample_post "d" 7))
                    (render_post (sample_post "a" 3))));
      vm_compute; reflexivity.
Defined.

(** ** More on the post index, the feed and the transition names *)

Section ArraySortMoreFacts.
Context {A : Type}.
Variable comparefn : A -> A -> Z.


(** Elements the comparator never separates keep their order. *)
Variable same_class : A -> bool.
Hypothesis same_class_tie :
  forall x y, same_class x = true -> same_class y = true -> (comparefn x y <= 0)%Z.

Lemma sort_insert_filter x l :
  List.filter same_class (sort_insert comparefn x l)
  = List.filter same_class (x :: l).
Proof.
  induction l as [|y l IH]; simpl; [reflexivity|].
  destruct (0 <? comparefn x y)%Z eqn:Hc; [|reflexivity].
  simpl. rewrite IH. simpl.
  destruct (same_class x) eqn:Hx, (same_class y) eqn:Hy; try reflexivity.
  apply Z.ltb_lt in Hc. pose proof (same_class_tie x y Hx Hy). lia.
Qed.

Lemma Array_sort_filter l :
  List.filter same_class (Array_sort comparefn l) = List.filter same_class l.
Proof.
  induction l as [|x l IH]; simpl; [reflexivity|].
  rewrite sort_insert_filter. simpl. by rewrite IH.
Qed.
End ArraySortMoreFacts.

Lemma StronglySorted_lookup {A} (R : A -> A -> Prop) (l : list A) i j x y :
  StronglySorted R l -> i < j -> l !! i = Some x -> l !! j = Some y -> R x y.
Proof.
  intros Hs. revert i j. induction Hs as [|a l Hs IH Hall]; intros i j Hij Hx Hy;
    [discriminate Hx|].
  destruct j as [|j]; [lia|]. destruct i as [|i]; simpl in *.
  - injection Hx as <-. rewrite List.Forall_forall in Hall. apply Hall.
    apply list_elem_of_In. by eapply list_elem_of_lookup_2.
  - apply (IH i j); [lia | done | done].
Qed.

Lemma in_order_by_pubDate_desc_trans (a b c : Post) :
  in_order by_pubDate_desc a b -> in_order by_pubDate_desc b c ->
  in_order by_pubDate_desc a c.
Proof. unfold in_order, by_pubDate_desc. lia. Qed.

Lemma posts_StronglySorted (collection : list Post) :
  StronglySorted (in_order by_pubDate_desc) (posts collection).
Proof.
  apply Sorted_StronglySorted.
  - intros a b c. apply in_order_by_pubDate_desc_trans.
  - apply Array_sort_Sorted, by_pubDate_desc_asym.
Qed.

(** X1: wherever two posts stand on the index page, the one listed earlier
    has the later or the same publication date. *)
Theorem index_page_sorted_all_pairs
    (collection : list Post) (i j : nat) (x y : ListItem) :
  i < j ->
  index_page collection !! i = Some x ->
  index_page collection !! j = Some y ->
  (li_date y <= li_date x)%Z.
Proof.
  unfold index_page. rewrite !list_lookup_fmap. intros Hij Hx Hy.
  destruct (posts collection !! i) as [a|] eqn:Ha; [|discriminate Hx].
  destruct (posts collection !! j) as [b|] eqn:Hb; [|discriminate Hy].
  simpl in Hx, Hy. injection Hx as <-. injection Hy as <-.
  pose proof (StronglySorted_lookup _ _ i j a b (posts_StronglySorted collection)
                Hij Ha Hb) as Hord.
  unfold in_order, by_pubDate_desc in Hord. simpl. lia.
Qed.

Lemma index_page_sorted_all_pairs_witness :
  (li_date (render_post (sample_post "c" 3))
   <= li_date (render_post (sample_post "b" 10)))%Z.
Proof.
  apply (index_page_sorted_all_pairs sample_collection 0 3);
    [lia | vm_compute; reflexivity | vm_compute; reflexivity].
Defined.

(** X2: posts with the same publication date stand on the index page in the
    order the collection has them. *)
Theorem index_page_keeps_order_of_same_date (collection : list Post) (d : Z) :
  List.filter (fun post => (pubDate (data post) =? d)%Z) (posts collection)
  = List.filter (fun post => (pubDate (data post) =? d)%Z) collection.
Proof.
  unfold posts. apply Array_sort_filter.
  intros x y Hx Hy. apply Z.eqb_eq in Hx, Hy. unfold by_pubDate_desc. lia.
Qed.


(** ["/" ++ s ++ "/"] determines [s]. *)
Lemma append_slash_inj (a b : string) : a ++ "/" = b ++ "/" -> a = b.
Proof.
  revert b. induction a as [|c a IH]; intros [|c' b] H; simpl in H.
  - reflexivity.
  - injection H as _ H. destruct b; discriminate H.
  - injection H as _ H. destruct a; discriminate H.
  - injection H as -> H. f_equal. by apply IH.
Qed.

Lemma href_inj (a b : string) : "/" ++ a ++ "/" = "/" ++ b ++ "/" -> a = b.
Proof. simpl. intros H. injection H as H. by apply append_slash_inj. Qed.

Lemma li_href_render_post (post : Post) :
  li_href (render_post post) = link (feed_item post).
Proof. reflexivity. Qed.

(** X4: the feed and the index page link to the same pages: the links of the
    feed items are the links of the index, in another order at most. *)
Theorem feed_links_are_index_links (context_site : string) (collection : list Post) :
  Permutation (map link (feed_items (GET context_site collection)))
              (map li_href (index_page collection)).
Proof.
  unfold GET, index_page. simpl. rewrite !map_map.
  symmetry. apply (Permutation_map (fun post => li_href (render_post post))).
  apply Array_sort_Permutation.
Qed.

(** X5: when the slugs of the collection differ from one another, so do the
    links on the index page. *)
Theorem index_page_links_distinct (collection : list Post) :
  NoDup (map slug collection) ->
  NoDup (map li_href (index_page collection)).
Proof.
  intros Hnd.
  assert (Hp : Permutation (map li_href (index_page collection))
                 (map (fun s => "/" ++ s ++ "/") (map slug collection))).
  { unfold index_page. rewrite !map_map.
    apply (Permutation_map (fun post => "/" ++ slug post ++ "/")).
    apply Array_sort_Permutation. }
  rewrite Hp. apply NoDup_fmap_2; [|exact Hnd].
  intros a b. apply href_inj.
Qed.

Lemma index_page_links_distinct_witness :
  NoDup (map li_href (index_page sample_collection)).
Proof.
  apply (index_page_links_distinct sample_collection).
  apply (bool_decide_unpack _). vm_compute. reflexivity.
Defined.

Lemma li_transition_names_NoDup (l : list Post) :
  NoDup (map slug l) -> NoDup (flat_map li_transition_names l).
Proof.
  induction l as [|a l IH]; simpl; intros Hnd; [constructor|].
  apply NoDup_cons_1_1 in Hnd as Hna. apply NoDup_cons_1_2 in Hnd as Hnl.
  assert (Hfresh : forall n, In n (flat_map li_transition_names l) ->
            exists q, In q l /\ (n = "date-" ++ slug q \/ n = "title-" ++ slug q)).
  { intros n Hn. apply in_flat_map in Hn as (q & Hq & Hn). exists q.
    split; [exact Hq|]. simpl in Hn. destruct Hn as [<-|[<-|[]]]; auto. }
  assert (Hslug : forall q, In q l -> slug a <> slug q).
  { intros q Hq E. apply Hna. rewrite E. apply list_elem_of_In, in_map, Hq. }
  constructor.
  - rewrite list_elem_of_In. simpl. intros [E|Hn]; [discriminate E|].
    destruct (Hfresh _ Hn) as (q & Hq & [E|E]); simpl in E.
    + injection E as E. by apply (Hslug q Hq).
    + discriminate E.
  - constructor; [|by apply IH].
    rewrite list_elem_of_In. intros Hn.
    destruct (Hfresh _ Hn) as (q & Hq & [E|E]); simpl in E.
    + discriminate E.
    + injection E as E. by apply (Hslug q Hq).
Qed.

(** X6: when the slugs of the collection differ from one another, no two
    elements of the index page carry the same [transition:name]. *)
Theorem index_transition_names_distinct (collection : list Post) :
  NoDup (map slug collection) ->
  NoDup (index_transition_names collection).
Proof.
  intros Hnd. unfold index_transition_names. apply li_transition_names_NoDup.
  unfold posts. by rewrite Array_sort_Permutation.
Qed.

Lemma index_transition_names_distinct_witness :
  NoDup (index_transition_names sample_collection).
Proof.
  apply (index_transition_names_distinct sample_collection).
  apply (bool_decide_unpack _). vm_compute. reflexivity.
Defined.

(** X7: the [transition:name]s of a post's page are those of the list item
    of the post with that slug, and of no item of a post with another slug:
    the page of a post pairs with its own entry of the index only. *)
Theorem BlogPost_names_pair_with_own_item (s : string) (post : Post) (n : string) :
  In n (BlogPost_transition_names s) ->
  In n (li_transition_names post) ->
  slug post = s /\ BlogPost_transition_names s = li_transition_names post.
Proof.
  unfold BlogPost_transition_names, li_transition_names. simpl.
  intros [<-|[<-|[]]] [E|[E|[]]]; try discriminate E;
    injection E as E; change (slug post = s) in E; subst s; split; reflexivity.
Qed.

Lemma BlogPost_names_pair_with_own_item_witness :
  slug (sample_post "a" 3) = "a" /\
  BlogPost_transition_names "a" = li_transition_names (sample_post "a" 3).
Proof.
  apply (BlogPost_names_pair_with_own_item "a" (sample_post "a" 3) "date-a");
    simpl; auto.
Defined.

(** ** More on the switch *)

Lemma restyle_count_app l1 l2 :
  restyle_count (l1 ++ l2) = restyle_count l1 + restyle_count l2.
Proof. unfold restyle_count. by rewrite List.filter_app, length_app. Qed.

Lemma write_count_app l1 l2 :
  write_count (l1 ++ l2) = write_count l1 + write_count l2.
Proof. unfold write_count. by rewrite List.filter_app, length_app. Qed.

Lemma selected_option_value (v : VNode) (p : Preference) :
  select_value v = Preference_value p -> selected_option v = Some p.
Proof. unfold selected_option. intros ->. by destruct p. Qed.

Lemma selected_option_none (v : VNode) :
  (forall p, select_value v <> Preference_value p) -> selected_option v = None.
Proof.
  intros H. unfold selected_option.
  destruct (decide (select_value v = "system")) as [E|_]; [by destruct (H System)|].
  destruct (decide (select_value v = "light")) as [E|_]; [by destruct (H Light)|].
  destruct (decide (select_value v = "dark")) as [E|_]; [by destruct (H Dark)|].
  reflexivity.
Qed.

(** X8: a mount that succeeds only reads: the storage is as before, nothing
    was written and the restyle routine was not called. After its one render
    the [value] given to the select is the stored string as it is
    (["system"] when there is none), which is the held preference; the
    select shows the option with that value when the string is one of the
    three, and no option at all otherwise. *)
Theorem mount_reads_and_shows_stored (w w' : World) :
  mount w = (Normal tt, w') ->
  localStorage w' = localStorage w /\
  write_count (log w') = write_count (log w) /\
  restyle_count (log w') = restyle_count (log w) /\
  exists v, dom w' = Some v /\
    select_value v = default "system" (items (localStorage w) !! color_scheme) /\
    (forall p, select_value v = Preference_value p -> selected_option v = Some p) /\
    ((forall p, select_value v <> Preference_value p) -> selected_option v = None) /\
    preference_slot (hooks w') = Some (select_value v) /\
    log w' = (log w ++ [EvRender v])%list.
Proof.
  rewrite mount_eq.
  destruct (mode (localStorage w)); intros H; try discriminate H; injection H as <-;
    simpl; rewrite write_count_app, restyle_count_app; simpl;
    (split; [reflexivity|]); (split; [unfold write_count; simpl; lia|]);
    (split; [unfold restyle_count; simpl; lia|]); eexists;
    (split; [reflexivity|]); (split; [reflexivity|]);
    (split; [apply selected_option_value|]);
    (split; [apply selected_option_none|]); by split.
Qed.

Lemma mount_reads_and_shows_stored_witness :
  exists v, dom (mounted_page Enabled (Some "banana") false) = Some v /\
    select_value v = "banana" /\
    (forall p, select_value v = Preference_value p -> selected_option v = Some p) /\
    ((forall p, select_value v <> Preference_value p) -> selected_option v = None) /\
    preference_slot (hooks (mounted_page Enabled (Some "banana") false))
      = Some (select_value v) /\
    log (mounted_page Enabled (Some "banana") false) = [EvRender v].
Proof.
  refine (proj2 (proj2 (proj2
    (mount_reads_and_shows_stored
       (fresh_page (storage_of Enabled (Some "banana")) false)
       (mounted_page Enabled (Some "banana") false) _)))).
  vm_compute. reflexivity.
Defined.

Example banana_shows_no_option :
  selected_option {| label_icon := Sun; select_value := "banana" |} = None.
Proof. reflexivity. Qed.

Lemma setPreference_eq v w cur :
  preference_slot (hooks w) = Some cur ->
  snd (setPreference v w) =
  if decide (cur = v) then w
  else with_dirty true (with_hooks (set_preference_slot v (hooks w)) w).
Proof. intros Hc. unfold setPreference, modify. simpl. by rewrite Hc. Qed.

(** The selection of [p] in the control, with a storage that takes writes. *)
Lemma dispatch_select_enabled w p cur d :
  dom w = Some d ->
  preference_slot (hooks w) = Some cur ->
  mode (localStorage w) = Enabled ->
  let v := Preference_value p in
  let w' := dispatch (UserSelects p) w in
  localStorage w' =
    {| mode := Enabled; items := <[color_scheme := v]> (items (localStorage w)) |} /\
  preference_slot (hooks w') = Some v /\
  restyle_count (log w') = S (restyle_count (log w)) /\
  write_count (log w') = S (write_count (log w)) /\
  (dirty w = false -> dirty w' = false) /\
  (exists d', dom w' = Some d' /\
     (dirty w = false -> select_value d = cur -> select_value d' = v)) /\
  (cur = v -> dirty w = false ->
     dom w' = dom w /\
     log w' = (log w ++ [EvSetItem color_scheme v true; EvUpdateDarkMode (Some v)])%list).
Proof.
  intros Hdom Hcur Hmode v w'. subst w'.
  unfold dispatch, handle, bind, gets. rewrite Hdom.
  pose proof (updatePreference_eq p w) as Hup. cbv zeta in Hup. rewrite Hmode in Hup.
  rewrite Hup. clear Hup. fold v.
  rewrite (setPreference_eq v w cur Hcur).
  unfold settle, flush.
  destruct (decide (cur = v)) as [->|Hne].
  - simpl. destruct (dirty w) eqn:Hd.
    + match goal with |- context [render ?x] => set (w2 := x) end.
      destruct (render_spec w2 v Hcur)
        as (w3 & -> & Hs3 & _ & Hp3 & Hdom3 & Hd3 & Hl3 & _).
      simpl. rewrite Hs3, Hl3. subst w2. simpl.
      rewrite !restyle_count_app, !write_count_app. simpl.
      repeat split; try done; try (unfold restyle_count, write_count; simpl; lia).
      eexists. split; [exact Hdom3|]. done.
    + simpl. rewrite !restyle_count_app, !write_count_app. simpl.
      repeat split; try done; try (unfold restyle_count, write_count; simpl; lia).
      * eexists. split; [exact Hdom|]. done.
      * by rewrite <- app_assoc.
  - simpl.
    match goal with |- context [render ?x] => set (w2 := x) end.
    assert (Hp2 : preference_slot (hooks w2) = Some v) by reflexivity.
    destruct (render_spec w2 v Hp2)
      as (w3 & -> & Hs3 & _ & Hp3 & Hdom3 & Hd3 & Hl3 & _).
    simpl. rewrite Hs3, Hl3. subst w2. simpl.
    rewrite !restyle_count_app, !write_count_app. simpl.
    repeat split; try done; try (unfold restyle_count, write_count; simpl; lia).
    eexists. split; [exact Hdom3|]. done.
Qed.

(** X9: after any number of selections, with a storage that takes writes, the
    storage and the held preference are the last selection, and the storage
    was written and the restyle routine called once per selection. *)
Theorem selections_last_one_wins
    (w : World) (ps : list Preference) (p : Preference) (cur : string) (d : VNode) :
  dom w = Some d ->
  preference_slot (hooks w) = Some cur ->
  mode (localStorage w) = Enabled ->
  let w' := run (map UserSelects (ps ++ [p])) w in
  items (localStorage w') !! color_scheme = Some (Preference_value p) /\
  preference_slot (hooks w') = Some (Preference_value p) /\
  write_count (log w') = write_count (log w) + S (length ps) /\
  restyle_count (log w') = restyle_count (log w) + S (length ps).
Proof.
  revert w cur d. induction ps as [|q ps IH]; intros w cur d Hdom Hcur Hmode; simpl.
  - destruct (dispatch_select_enabled w p cur d Hdom Hcur Hmode)
      as (Hs & Hp & Hr & Hw & _).
    rewrite Hs, Hp, Hr, Hw. simpl. rewrite lookup_insert_eq.
    repeat split; lia.
  - destruct (dispatch_select_enabled w q cur d Hdom Hcur Hmode)
      as (Hs & Hp & Hr & Hw & _ & (d' & Hd' & _) & _).
    assert (Hm' : mode (localStorage (dispatch (UserSelects q) w)) = Enabled)
      by (by rewrite Hs).
    destruct (IH _ _ _ Hd' Hp Hm') as (H1 & H2 & H3 & H4).
    simpl in *. rewrite H3, H4, Hr, Hw. repeat split; try done; lia.
Qed.

Lemma selections_last_one_wins_witness :
  items (localStorage (run (map UserSelects ([Dark; System] ++ [Light]))
                          (mounted_page Enabled None false)))
    !! color_scheme = Some "light".
Proof.
  refine (proj1 (selections_last_one_wins (mounted_page Enabled None false)
                   [Dark; System] Light "system"
                   {| label_icon := Sun; select_value := "system" |} _ _ _));
    vm_compute; reflexivity.
Defined.

(** X10: selecting the value that is already held writes it and calls the
    restyle routine, but queues no render: the displayed output stays as it
    was. *)
Theorem reselecting_held_value_does_not_render
    (w : World) (p : Preference) (d : VNode) :
  dom w = Some d ->
  preference_slot (hooks w) = Some (Preference_value p) ->
  dirty w = false ->
  mode (localStorage w) = Enabled ->
  let w' := dispatch (UserSelects p) w in
  dom w' = Some d /\
  log w' = (log w ++ [EvSetItem color_scheme (Preference_value p) true;
                      EvUpdateDarkMode (Some (Preference_value p))])%list.
Proof.
  intros Hdom Hcur Hd Hmode w'.
  destruct (dispatch_select_enabled w p _ d Hdom Hcur Hmode)
    as (_ & _ & _ & _ & _ & _ & Hsame).
  destruct (Hsame eq_refl Hd) as [H1 H2]. split; [by rewrite <- Hdom | exact H2].
Qed.

Lemma reselecting_held_value_does_not_render_witness :
  dom (dispatch (UserSelects System) (mounted_page Enabled None true))
  = Some {| label_icon := Moon; select_value := "system" |}.
Proof.
  refine (proj1 (reselecting_held_value_does_not_render
                   (mounted_page Enabled None true) System
                   {| label_icon := Moon; select_value := "system" |} _ _ _ _));
    vm_compute; reflexivity.
Defined.

Lemma dispatch_os_flip w cur :
  preference_slot (hooks w) = Some cur ->
  let w' := dispatch OsSignalFlips w in
  prefers_dark w' = negb (prefers_dark w) /\
  localStorage w' = localStorage w /\
  preference_slot (hooks w') = Some cur /\
  dirty w' = false /\
  (exists evs, log w' = (log w ++ evs)%list /\
     write_count evs = 0 /\ restyle_count evs = 0) /\
  (dirty w = false ->
   (exists v, dom w = Some v /\ select_value v = cur) ->
   exists v, dom w' = Some v /\ select_value v = cur).
Proof.
  intros Hc w'. subst w'.
  unfold dispatch, handle, bind, modify, gets.
  set (w0 := with_prefers_dark (negb (prefers_dark w)) w).
  destruct (call_listeners_spec (mql_listeners w0) w0) as (w1 & -> & Hf & _ & _).
  unfold settle, flush.
  assert (Hp1 : preference_slot (hooks w1) = Some cur).
  { rewrite (oqr_preference _ _ Hf). exact Hc. }
  destruct (dirty w1) eqn:Hd1.
  - destruct (render_spec w1 cur Hp1)
      as (w2 & -> & Hs2 & Hpd2 & Hp2 & Hdom2 & Hd2 & Hl2 & _).
    simpl. rewrite Hs2, Hpd2, Hl2.
    rewrite (oqr_localStorage _ _ Hf), (oqr_prefers_dark _ _ Hf), (oqr_log _ _ Hf).
    repeat split; try done.
    + by eexists.
    + intros _ _. by eexists.
  - rewrite (oqr_localStorage _ _ Hf), (oqr_prefers_dark _ _ Hf), (oqr_log _ _ Hf),
      (oqr_dom _ _ Hf).
    repeat split; try done.
    exists []. by rewrite app_nil_r.
Qed.

(** X11: whatever the held preference is, a flip of the operating system's
    signal leaves the storage and the held preference alone: nothing is
    written and the restyle routine is not called. *)
Theorem os_signal_flip_never_writes (w : World) (cur : string) :
  preference_slot (hooks w) = Some cur ->
  let w' := dispatch OsSignalFlips w in
  localStorage w' = localStorage w /\
  preference_slot (hooks w') = Some cur /\
  write_count (log w') = write_count (log w) /\
  restyle_count (log w') = restyle_count (log w).
Proof.
  intros Hc w'.
  destruct (dispatch_os_flip w cur Hc) as (_ & Hs & Hp & _ & (evs & Hl & Hw & Hr) & _).
  subst w'. rewrite Hl, write_count_app, restyle_count_app, Hw, Hr.
  repeat split; try done; lia.
Qed.

Lemma os_signal_flip_never_writes_witness :
  localStorage (dispatch OsSignalFlips (mounted_page Enabled (Some "dark") false))
  = localStorage (mounted_page Enabled (Some "dark") false).
Proof.
  refine (proj1 (os_signal_flip_never_writes
                   (mounted_page Enabled (Some "dark") false) "dark" _)).
  vm_compute. reflexivity.
Defined.

Lemma gone_dispatch ev w :
  gone w ->
  dispatch ev w =
  match ev with
  | OsSignalFlips => with_prefers_dark (negb (prefers_dark w)) w
  | UserSelects _ | Unmount => w
  end.
Proof.
  intros (Hh & Hd & Hdom). destruct ev as [p| |];
    unfold dispatch, handle, unmount, bind, gets, modify.
  - rewrite Hdom. simpl. unfold flush. by rewrite Hd.
  - set (w0 := with_prefers_dark (negb (prefers_dark w)) w).
    destruct (call_listeners_spec (mql_listeners w0) w0) as (w1 & -> & _ & _ & Hn).
    rewrite Hn by (simpl; by rewrite Hh). simpl. unfold flush. simpl. by rewrite Hd.
  - rewrite Hh. simpl. unfold flush. simpl.
    destruct w; simpl in *. by subst.
Qed.

Lemma gone_run evs w :
  gone w ->
  gone (run evs w) /\
  log (run evs w) = log w /\
  localStorage (run evs w) = localStorage w /\
  mql_listeners (run evs w) = mql_listeners w.
Proof.
  revert w. induction evs as [|ev evs IH]; intros w Hg; [done|].
  simpl. rewrite (gone_dispatch ev w Hg).
  destruct ev; try (by apply IH).
  destruct (IH (with_prefers_dark (negb (prefers_dark w)) w)) as (H1 & H2 & H3 & H4);
    [exact Hg | done].
Qed.

(** X12: after the unmount the listener is still registered, but the page is
    inert: whatever happens next, nothing is rendered, written or restyled,
    and nothing is displayed. *)
Theorem unmounted_switch_is_inert (w : World) (evs : list PageEvent) :
  effect_slot (hooks w) = Ran None ->
  let w' := run (Unmount :: evs) w in
  mql_listeners w' = mql_listeners w /\
  log w' = log w /\
  localStorage w' = localStorage w /\
  dom w' = None.
Proof.
  intros He w'. subst w'. simpl.
  assert (Hu : dispatch Unmount w = with_dirty false (with_dom None (with_hooks no_hooks w))).
  { unfold dispatch, handle, unmount, bind, gets, modify. by rewrite He. }
  rewrite Hu.
  destruct (gone_run evs (with_dirty false (with_dom None (with_hooks no_hooks w))))
    as ((_ & _ & Hdom) & Hl & Hs & Hls); [done|].
  by rewrite Hl, Hs, Hls, Hdom.
Qed.

Lemma unmounted_switch_is_inert_witness :
  log (run (Unmount :: [OsSignalFlips; UserSelects Dark; OsSignalFlips])
         (mounted_page Enabled None false))
  = log (mounted_page Enabled None false).
Proof.
  refine (proj1 (proj2 (unmounted_switch_is_inert (mounted_page Enabled None false)
                          [OsSignalFlips; UserSelects Dark; OsSignalFlips] _))).
  vm_compute. reflexivity.
Defined.

Lemma shows_stored_dispatch ev w :
  shows_stored w -> shows_stored (dispatch ev w).
Proof.
  intros (Hm & Hd & Hslot).
  destruct (preference_slot (hooks w)) as [s|] eqn:Hp.
  - destruct Hslot as (Hread & v & Hdom & Hv). destruct ev as [p| |].
    + destruct (dispatch_select_enabled w p s v Hdom Hp Hm)
        as (Hs & Hp' & _ & _ & Hd' & (d' & Hdom' & Hsel) & _).
      unfold shows_stored. rewrite Hs, Hp'. simpl. rewrite lookup_insert_eq. simpl.
      repeat split; auto. exists d'. auto.
    + destruct (dispatch_os_flip w s Hp) as (_ & Hs & Hp' & Hd' & _ & Hdom').
      unfold shows_stored. rewrite Hs, Hp'. repeat split; auto.
      apply Hdom'; [exact Hd|]. by exists v.
    + unfold dispatch, handle, unmount, bind, gets, modify.
      destruct (effect_slot (hooks w)) as [| |[l|]]; simpl;
        unfold flush; simpl; by repeat split.
  - destruct Hslot as (Hh & Hdom).
    rewrite (gone_dispatch ev w) by done.
    destruct ev; unfold shows_stored; simpl; rewrite ?Hp; by repeat split.
Qed.

Lemma shows_stored_run evs w :
  shows_stored w -> shows_stored (run evs w).
Proof.
  revert w. induction evs as [|ev evs IH]; intros w H; [exact H|].
  simpl. by apply IH, shows_stored_dispatch.
Qed.

(** X13: on a page mounted with a storage that takes writes, whatever
    selections, signal flips and unmount follow, as long as the component
    holds a preference a fresh read of the storage (a reload of the page)
    gives it, and it is the [value] given to the select, which shows the
    option with that value whenever the string is one of the three. *)
Theorem shown_preference_survives_reload
    (w w' : World) (evs : list PageEvent) (s : string) :
  mode (localStorage w) = Enabled ->
  mount w = (Normal tt, w') ->
  preference_slot (hooks (run evs w')) = Some s ->
  fst (initialPreference (run evs w')) = Normal s /\
  exists v, dom (run evs w') = Some v /\ select_value v = s /\
    (forall p, s = Preference_value p -> selected_option v = Some p).
Proof.
  intros Hm Hmount Hs.
  assert (H0 : shows_stored w').
  { rewrite mount_eq, Hm in Hmount. injection Hmount as <-.
    unfold shows_stored. simpl. rewrite Hm. repeat split; eauto. }
  destruct (shows_stored_run evs w' H0) as (Hm' & _ & Hslot).
  rewrite Hs in Hslot. destruct Hslot as (Hread & v & Hdom & Hv).
  split.
  - rewrite initialPreference_eq, Hm'. simpl. by rewrite Hread.
  - exists v. split; [exact Hdom|]. split; [exact Hv|].
    intros p Hp. apply selected_option_value. by rewrite Hv.
Qed.

Lemma shown_preference_survives_reload_witness :
  fst (initialPreference
         (run [UserSelects Dark; OsSignalFlips; UserSelects Light]
            (mounted_page Enabled None false))) = Normal "light".
Proof.
  refine (proj1 (shown_preference_survives_reload
                   (fresh_page (storage_of Enabled None) false)
                   (mounted_page Enabled None false)
                   [UserSelects Dark; OsSignalFlips; UserSelects Light] "light" _ _ _));
    vm_compute; reflexivity.
Defined.

(** X14: when the write of a new selection fails (quota used up), the select
    shows the new value and the component holds it, but the storage is as
    before: a fresh read still gives the previous preference. The exception
    is reported uncaught. *)
Theorem failed_write_is_lost_on_reload
    (w : World) (p : Preference) (cur : string) (d : VNode) :
  dom w = Some d ->
  preference_slot (hooks w) = Some cur ->
  cur <> Preference_value p ->
  mode (localStorage w) = QuotaFull ->
  let w' := dispatch (UserSelects p) w in
  (exists v, dom w' = Some v /\ select_value v = Preference_value p) /\
  preference_slot (hooks w') = Some (Preference_value p) /\
  initialPreference w' = (fst (initialPreference w), w') /\
  In (EvUncaught QuotaExceededError) (log w').
Proof.
  intros Hdom Hcur Hne Hmode w'. subst w'.
  unfold dispatch, handle, bind, gets. rewrite Hdom.
  pose proof (updatePreference_eq p w) as Hup. cbv zeta in Hup. rewrite Hmode in Hup.
  rewrite Hup. clear Hup.
  rewrite (setPreference_eq _ w cur Hcur).
  destruct (decide (cur = Preference_value p)) as [E|_]; [by destruct Hne|].
  unfold settle, flush. simpl.
  match goal with |- context [render ?x] => set (w2 := x) end.
  assert (Hp2 : preference_slot (hooks w2) = Some (Preference_value p)) by reflexivity.
  destruct (render_spec w2 _ Hp2) as (w3 & -> & Hs3 & _ & Hp3 & Hdom3 & _ & Hl3 & _).
  simpl. split; [by eexists|]. split; [exact Hp3|]. split.
  - rewrite !initialPreference_eq. simpl. by rewrite Hs3.
  - rewrite Hl3. subst w2. simpl. rewrite !in_app_iff. simpl. auto.
Qed.

Lemma failed_write_is_lost_on_reload_witness :
  initialPreference (dispatch (UserSelects Dark) (mounted_page QuotaFull (Some "light") false))
  = (Normal "light",
     dispatch (UserSelects Dark) (mounted_page QuotaFull (Some "light") false)).
Proof.
  refine (proj1 (proj2 (proj2
    (failed_write_is_lost_on_reload (mounted_page QuotaFull (Some "light") false) Dark
       "light" {| label_icon := Sun; select_value := "light" |} _ _ _ _))));
    vm_compute; try reflexivity. discriminate.
Defined.

(** ** The terminal script *)

Lemma querySelector_pre_Element name cls kids :
  querySelector_pre (Element name cls kids) = first_pre kids 0.
Proof. reflexivity. Qed.

Lemma first_pre_pre_free before rest i :
  Forall pre_free before ->
  first_pre (before ++ rest) i = first_pre rest (i + length before).
Proof.
  intros Hb. revert i. induction Hb as [|k before [Hk Hq] _ IH]; intros i; simpl.
  - by rewrite Nat.add_0_r.
  - rewrite Hk, Hq, IH. f_equal. lia.
Qed.

Lemma first_pre_path ks i path :
  first_pre ks i = Some path ->
  exists j rest, path = (i + j) :: rest /\ j < length ks.
Proof.
  revert i. induction ks as [|k ks IH]; intros i H; simpl in H; [discriminate H|].
  destruct (is_pre k).
  - injection H as <-. exists 0, []. split; [f_equal; lia | simpl; lia].
  - destruct (querySelector_pre k) as [q|].
    + injection H as <-. exists 0, q. split; [f_equal; lia | simpl; lia].
    + destruct (IH _ H) as (j & rest & -> & Hj).
      exists (S j), rest. split; [f_equal; lia | simpl; lia].
Qed.

Lemma querySelector_pre_nonempty k path :
  querySelector_pre k = Some path -> path <> [].
Proof.
  destruct k as [|name cls kids]; [discriminate|].
  rewrite querySelector_pre_Element. intros H.
  destruct (first_pre_path _ _ _ H) as (j & rest & -> & _). discriminate.
Qed.

Example add_top_sample :
  add_top sample_terminal =
  Done (Element "div" "terminal"
          [Text " "; top_bar; Element "pre" "" [Text "START TRANSACTION;"]; Text " "]).
Proof. reflexivity. Qed.

(** X15: in a terminal whose first [pre] is one of its child nodes, the bar
    is put right in front of that [pre]; the child nodes before and after
    stay as they are. *)
Theorem add_top_before_first_pre
    (name cls : string) (before after : list Node) (pre : Node) :
  Forall pre_free before ->
  is_pre pre = true ->
  add_top (Element name cls (before ++ pre :: after))
  = Done (Element name cls (before ++ top_bar :: pre :: after)).
Proof.
  intros Hb Hp. unfold add_top.
  rewrite querySelector_pre_Element, (first_pre_pre_free _ _ _ Hb). simpl.
  rewrite Hp. simpl.
  by rewrite take_app_length, drop_app_length.
Qed.

Lemma add_top_before_first_pre_witness :
  add_top (Element "div" "terminal" ([Text " "] ++ Element "pre" "" [] :: [Text " "]))
  = Done (Element "div" "terminal"
            ([Text " "] ++ top_bar :: Element "pre" "" [] :: [Text " "])).
Proof.
  apply (add_top_before_first_pre "div" "terminal" [Text " "] [Text " "]
           (Element "pre" "" [])).
  - repeat constructor.
  - reflexivity.
Defined.

(** X16: in a terminal without any [pre] the bar becomes the last child
    node. *)
Theorem add_top_without_pre (name cls : string) (kids : list Node) :
  Forall pre_free kids ->
  add_top (Element name cls kids) = Done (Element name cls (kids ++ [top_bar])).
Proof.
  intros Hk. unfold add_top.
  rewrite querySelector_pre_Element.
  rewrite <- (app_nil_r kids) at 1. rewrite (first_pre_pre_free _ _ _ Hk).
  reflexivity.
Qed.

Lemma add_top_without_pre_witness :
  add_top (Element "div" "terminal" [Text "$ ls"; Element "br" "" []])
  = Done (Element "div" "terminal" ([Text "$ ls"; Element "br" "" []] ++ [top_bar])).
Proof.
  apply (add_top_without_pre "div" "terminal" [Text "$ ls"; Element "br" "" []]).
  repeat constructor.
Defined.

(** X17: when the first [pre] below the terminal, in tree order, sits inside
    one of its child nodes, [insertBefore] raises [NotFoundError] and no bar
    is added, even if a later child node is a [pre]. *)
Theorem add_top_nested_pre_throws
    (name cls : string) (before after : list Node) (k : Node) (path : list nat) :
  Forall pre_free before ->
  is_pre k = false ->
  querySelector_pre k = Some path ->
  add_top (Element name cls (before ++ k :: after)) = NotFoundError.
Proof.
  intros Hb Hk Hq. unfold add_top.
  rewrite querySelector_pre_Element, (first_pre_pre_free _ _ _ Hb). simpl.
  rewrite Hk, Hq. simpl.
  pose proof (querySelector_pre_nonempty k path Hq). by destruct path.
Qed.

Lemma add_top_nested_pre_throws_witness :
  add_top wrapped_terminal = NotFoundError.
Proof.
  apply (add_top_nested_pre_throws "div" "terminal" []
           [Element "pre" "" []]
           (Element "div" "scroll" [Element "pre" "" [Text "COMMIT;"]]) [0]).
  - constructor.
  - reflexivity.
  - reflexivity.
Defined.

(** X18: the callback never removes or reorders child nodes: when it
    returns, the terminal has its child nodes as before with the one bar
    inserted among them. *)
Theorem add_top_keeps_children (name cls : string) (kids : list Node) (t' : Node) :
  add_top (Element name cls kids) = Done t' ->
  exists i, i <= length kids /\
    t' = Element name cls (take i kids ++ top_bar :: drop i kids).
Proof.
  unfold add_top. rewrite querySelector_pre_Element.
  destruct (first_pre kids 0) as [path|] eqn:Hf; simpl.
  - destruct (first_pre_path _ _ _ Hf) as (j & rest & -> & Hj).
    destruct rest; intros H; [|discriminate H]. injection H as <-.
    exists j. split; [lia | reflexivity].
  - intros H. injection H as <-. exists (length kids).
    split; [lia|]. by rewrite firstn_all, drop_all.
Qed.

Lemma add_top_keeps_children_witness :
  exists i, i <= 3 /\
    Element "div" "terminal"
      [Text " "; top_bar; Element "pre" "" [Text "START TRANSACTION;"]; Text " "]
    = Element "div" "terminal"
        (take i [Text " "; Element "pre" "" [Text "START TRANSACTION;"]; Text " "]
         ++ top_bar
         :: drop i [Text " "; Element "pre" "" [Text "START TRANSACTION;"]; Text " "]).
Proof.
  apply (add_top_keeps_children "div" "terminal"
           [Text " "; Element "pre" "" [Text "START TRANSACTION;"]; Text " "]).
  reflexivity.
Defined.

(** X19: the loop stops at the first terminal whose callback raises: the
    terminals before it got their bar, that terminal and all later ones are
    left as they were. *)
Theorem forEach_add_top_stops_at_exception (ts1 ts2 : list Node) (t : Node) :
  snd (forEach_add_top ts1) = false ->
  add_top t = NotFoundError ->
  forEach_add_top (ts1 ++ t :: ts2)
  = ((fst (forEach_add_top ts1) ++ t :: ts2)%list, true).
Proof.
  intros H1 Ht. induction ts1 as [|a ts1 IH]; simpl in *.
  - by rewrite Ht.
  - destruct (add_top a) as [a'|]; [|discriminate H1].
    destruct (forEach_add_top ts1) as [ts1' thrown]. simpl in *.
    by rewrite IH.
Qed.

Lemma forEach_add_top_stops_at_exception_witness :
  forEach_add_top ([sample_terminal] ++ wrapped_terminal :: [sample_terminal])
  = ((fst (forEach_add_top [sample_terminal])
      ++ wrapped_terminal :: [sample_terminal])%list, true).
Proof.
  apply (forEach_add_top_stops_at_exception [sample_terminal] [sample_terminal]
           wrapped_terminal); reflexivity.
Defined.
